(** * MyCastle desktop agent: operation registry, dispatcher and lifecycle

    A shallow embedding of
    - [operations/__init__.py]: the registry [_operations], the decorator
      [operation], [list_operations] and [execute];
    - [operations/shell.py]: the handler [run_command];
    - [agent.py]: [DesktopAgent] with [_on_connect], [_on_message],
      [_publish_response], [_publish_error], [_publish_status], [start] and
      [stop], and the shutdown path of [main];
    - [operations/clipboard.py], [operations/app.py], [operations/media.py]
      (the volume), [operations/window.py] and [kill_process] of
      [operations/process.py]: the handlers, over the libraries they call.

    Python objects that come out of [json.loads] are values of [json]; the
    module-level dict [_operations] is a [gmap string handler]; the effects
    (the MQTT client, the clock, [uuid4], handlers acting on the machine) are
    threaded through a state-and-exception monad that also records the trace
    of calls made on the MQTT client.

    Conventions.  A [str] is a [string]: text outside ASCII stands as its
    UTF-8 bytes, whose lexicographic order is the order of code points that
    [sorted] uses; [len] and slices count code points, not bytes.  To publish is to call [client.publish]; what the client
    then puts on the wire is its own business.  A handler is a total function
    of its parameters and the machine: a handler that never returns has no
    counterpart here.  Logging is left out, except where formatting the log
    line can raise. *)

From Stdlib Require Import ZArith QArith String Ascii List Lia.
From stdpp Require Import base option list gmap strings sorting pretty.

Local Open Scope Z_scope.
Local Open Scope string_scope.

Set Warnings "-register-all".

(** ** Values *)

(** A Python [float]: not-a-number, an infinity, or a finite value, which is
    a rational.  [json.loads] yields all three kinds ([NaN], [Infinity],
    [1e400]). *)
Inductive pyfloat :=
| FNan
| FInf (negative : bool)
| FFinite (q : Q).

(** What [json.loads] returns: [None], [bool], [int], [float], [str], [list]
    and [dict] with [str] keys.  A dict keeps its items in insertion order;
    [dict_get] reads the first item under a key. *)
Inductive json :=
| JNull
| JBool (b : bool)
| JInt (z : Z)
| JFloat (f : pyfloat)
| JStr (s : string)
| JList (l : list json)
| JDict (kvs : list (string * json)).

Fixpoint dict_get (k : string) (kvs : list (string * json)) : option json :=
  match kvs with
  | [] => None
  | (k', v) :: rest => if String.eqb k k' then Some v else dict_get k rest
  end.

(** [d.get(k, default)] on the items of a dict. *)
Definition dict_get_or (k : string) (kvs : list (string * json)) (default : json)
  : json :=
  match dict_get k kvs with
  | Some v => v
  | None => default
  end.

(** [type(v).__name__] *)
Definition type_name (v : json) : string :=
  match v with
  | JNull => "NoneType"
  | JBool _ => "bool"
  | JInt _ => "int"
  | JFloat _ => "float"
  | JStr _ => "str"
  | JList _ => "list"
  | JDict _ => "dict"
  end.

Definition float_truthy (f : pyfloat) : bool :=
  match f with
  | FNan => true
  | FInf _ => true
  | FFinite q => negb (Qeq_bool q 0)
  end.

(** [bool(v)], as tested by [not action], [if request_id] and [params or {}]. *)
Definition truthy (v : json) : bool :=
  match v with
  | JNull => false
  | JBool b => b
  | JInt z => negb (Z.eqb z 0)
  | JFloat f => float_truthy f
  | JStr s => negb (String.eqb s "")
  | JList l => match l with [] => false | _ => true end
  | JDict kvs => match kvs with [] => false | _ => true end
  end.

(** ** Exceptions *)

(** The [except] clauses of [agent.py] tell these exceptions apart:
    [json.JSONDecodeError], any other [Exception], and the two outside
    [Exception] that the shutdown path raises.  [exn_str] is [str(e)]. *)
Inductive exn_class :=
| JSONDecodeError
| OtherException
| KeyboardInterrupt
| SystemExit.

Record exn := Exn { exn_cls : exn_class; exn_str : string }.

Inductive result (A : Type) :=
| Ok (a : A)
| Raise (e : exn).
Arguments Ok {A} a.
Arguments Raise {A} e.

(** Errors raised by the interpreter itself rather than by a [raise] of the
    repository; their text belongs to CPython ([err_text] below). *)
Inductive interp_error :=
| NoAttributeGet (ty : string)      (* v.get(...) on something that is no dict *)
| NotSubscriptable (ty : string)    (* v[:8] on None, bool, int, float *)
| SliceOfDict                       (* d[:8] on a dict *)
| UnhashableKey (ty : string)       (* _operations.get(v) on a list or dict *)
| LtNotSupported (ty : string)      (* min(v, 120) on something that is no number *)
| EventLoopClosed.                  (* run_until_complete on a closed loop *)

(** The texts of CPython 3.11. *)
Definition cpython_text (e : interp_error) : string :=
  match e with
  | NoAttributeGet ty => "'" +:+ ty +:+ "' object has no attribute 'get'"
  | NotSubscriptable ty => "'" +:+ ty +:+ "' object is not subscriptable"
  | SliceOfDict => "unhashable type: 'slice'"
  | UnhashableKey ty => "unhashable type: '" +:+ ty +:+ "'"
  | LtNotSupported ty =>
      "'<' not supported between instances of 'int' and '" +:+ ty +:+ "'"
  | EventLoopClosed => "Event loop is closed"
  end.

(** ** The registry: [operations/__init__.py] *)

(** What a handler does to the machine, as far as it is observed here: the
    call of [subprocess.run], with the timeout it is given. *)
Inductive os_event :=
| SubprocessRun (command : json) (timeout : json).

(** An object a handler returns: one that [json.dumps] accepts, or one it
    rejects, with the text of the error [json.dumps] raises. *)
Inductive pyobj :=
| Json (v : json)
| NotJson (dumps_error : string).

(** What calling a handler ends in. *)
Inductive handler_result :=
| Returned (o : pyobj)
| Raised (e : exn).

Section Registry.

(** The machine the handlers act on. *)
Context {World : Type}.

(** A registered callable.  [is_coroutine] is
    [asyncio.iscoroutinefunction(fn)]; [run] is the call [fn(params)], awaited
    when [fn] is a coroutine function. *)
Record handler := Handler {
  is_coroutine : bool;
  run : json -> World -> handler_result * World * list os_event
}.

(** [_operations: dict[str, Callable]] *)
Abbreviation registry := (gmap string handler).

(** [operation(name)(fn)]: [_operations[name] = fn]. *)
Definition operation (name : string) (fn : handler) (_operations : registry)
  : registry :=
  <[name := fn]> _operations.

(** [sorted(_operations.keys())] *)
Definition list_operations (_operations : registry) : list string :=
  merge_sort String.le (map_to_list _operations).*1.

(** [_operations.get(action)] for a string [action]. *)
Definition lookup_operation (_operations : registry) (name : string)
  : option handler :=
  _operations !! name.

(** The number of items of the dict stored under [name]. *)
Definition entries_for (name : string) (_operations : registry) : nat :=
  length (filter (fun kv => kv.1 = name) (map_to_list _operations)).

End Registry.

Arguments handler : clear implicits.

(** ** What the agent takes from outside *)

(** What [subprocess.run] ends in: a [CompletedProcess], or an exception
    ([TimeoutExpired] when the timeout runs out). *)
Inductive run_outcome :=
| Completed (stdout stderr : string) (returncode : Z)
| RunRaised (e : exn).

(** Library calls and configuration, over the machine [World]:
    [str(uuid.uuid4())], [int(time.time() * 1000)],
    [json.loads(payload.decode())], the text of interpreter errors, [str(v)]
    of a value that is no [str],
    [subprocess.run(command, shell=True, capture_output=True, text=True,
    timeout=timeout)], and the constants of [config.py]. *)
Class Platform (World : Type) := {
  uuid4 : World -> string * World;
  time_ms : World -> Z * World;
  decode_loads : list Byte.byte -> result json;
  err_text : interp_error -> string;
  py_repr : json -> string;
  subprocess_run : json -> json -> World -> run_outcome * World;
  MQTT_BROKER_HOST : string;
  MQTT_BROKER_PORT : Z;
  MQTT_CLIENT_ID : string;
  SHELL_COMMAND_TIMEOUT : Z;
  SHELL_MAX_OUTPUT_SIZE : Z
}.

(** [config.TOPICS] *)
Definition TOPICS_REQUEST : string := "mycastle/desktop/request".
Definition TOPICS_RESPONSE : string := "mycastle/desktop/response".
Definition TOPICS_STATUS : string := "mycastle/desktop/status".

(** ** The agent: [agent.py] *)

(** The calls the agent makes on its MQTT client, on its event loop and on
    the handlers, in the order it makes them.  The packet of a publish is the
    dict given to [json.dumps]. *)
Inductive event :=
| EvPublish (topic : string) (packet : json) (qos : Z) (retain : bool)
| EvSubscribe (topic : string) (qos : Z)
| EvCall (name : string) (params : json)
| EvOS (e : os_event)
| EvWsSetOptions (path : string)
| EvConnect (host : string) (port : Z)
| EvLoopStart
| EvLoopStop
| EvDisconnect
| EvSleep (millis : Z)
| EvLoopClose.

(** The fields of [DesktopAgent] that change: [self.running] and whether
    [self.loop] has been closed. *)
Record agent := Agent { running : bool; loop_closed : bool }.

(** [DesktopAgent.__init__] *)
Definition init : agent := {| running := false; loop_closed := false |}.

(** [msg.topic] and [msg.payload] *)
Record mqtt_message := Message { topic : string; payload : list Byte.byte }.

Section Agent.

Context {World : Type} `{!Platform World}.

Abbreviation registry := (gmap string (handler World)).

(** *** State, exceptions and trace *)

Definition M (A : Type) : Type :=
  agent * World -> result A * (agent * World) * list event.

Definition ret {A} (a : A) : M A := fun s => (Ok a, s, []).

Definition raise {A} (e : exn) : M A := fun s => (Raise e, s, []).

Definition bind {A B} (c : M A) (k : A -> M B) : M B :=
  fun s =>
    match c s with
    | (Ok a, s1, t1) => let '(r, s2, t2) := k a s1 in (r, s2, (t1 ++ t2)%list)
    | (Raise e, s1, t1) => (Raise e, s1, t1)
    end.

(** [try: c  except ... as e: h e] *)
Definition try_except {A} (c : M A) (h : exn -> M A) : M A :=
  fun s =>
    match c s with
    | (Ok a, s1, t1) => (Ok a, s1, t1)
    | (Raise e, s1, t1) => let '(r, s2, t2) := h e s1 in (r, s2, (t1 ++ t2)%list)
    end.

(** [try: c  finally: f] *)
Definition try_finally {A} (c : M A) (f : M unit) : M A :=
  fun s =>
    let '(r, s1, t1) := c s in
    match f s1 with
    | (Ok _, s2, t2) => (r, s2, (t1 ++ t2)%list)
    | (Raise e, s2, t2) => (Raise e, s2, (t1 ++ t2)%list)
    end.

Definition lift {A} (r : result A) : M A := fun s => (r, s, []).

Definition emit (e : event) : M unit := fun s => (Ok tt, s, [e]).

Definition in_world {A} (f : World -> A * World) : M A :=
  fun s => let '(x, w) := f (snd s) in (Ok x, (fst s, w), []).

Notation "x <- c ;; k" := (bind c (fun x => k))
  (at level 100, c at next level, right associativity).
Notation "c ;;; k" := (bind c (fun _ => k))
  (at level 100, right associativity).

Definition outcome {A} (o : result A * (agent * World) * list event)
  : result A := fst (fst o).
Definition agent_after {A} (o : result A * (agent * World) * list event)
  : agent := fst (snd (fst o)).
Definition world_after {A} (o : result A * (agent * World) * list event)
  : World := snd (snd (fst o)).
Definition trace {A} (o : result A * (agent * World) * list event)
  : list event := snd o.

(** *** Python on [json] values *)

Definition interp_raise {A} (e : interp_error) : result A :=
  Raise (Exn OtherException (err_text e)).

(** [obj.get(key, default)] *)
Definition py_get (obj : json) (key : string) (default : json) : result json :=
  match obj with
  | JDict kvs => Ok (dict_get_or key kvs default)
  | _ => interp_raise (NoAttributeGet (type_name obj))
  end.

(** [v[:8]] in the f-string of the log line; the slice itself is only
    logged. *)
Definition slice8 (v : json) : result unit :=
  match v with
  | JStr _ | JList _ => Ok tt
  | JDict _ => interp_raise SliceOfDict
  | _ => interp_raise (NotSubscriptable (type_name v))
  end.

(** [f"{v}"] *)
Definition py_str (v : json) : string :=
  match v with
  | JStr s => s
  | _ => py_repr v
  end.

(** *** [operations.execute] *)

(** [_operations.get(action)]: a list or a dict cannot be hashed; any other
    value that is no [str] equals no key. *)
Definition operations_get (_operations : registry) (action : json)
  : result (option (string * handler World)) :=
  match action with
  | JStr name =>
      Ok (match lookup_operation _operations name with
          | Some fn => Some (name, fn)
          | None => None
          end)
  | JList _ | JDict _ => interp_raise (UnhashableKey (type_name action))
  | _ => Ok None
  end.

(** [fn(params)], run to its end. *)
Definition call (name : string) (fn : handler World) (params : json) : M pyobj :=
  fun s =>
    let '(r, w, evs) := run fn params (snd s) in
    (match r with Returned o => Ok o | Raised e => Raise e end,
     (fst s, w),
     EvCall name params :: map EvOS evs).

Definition execute (_operations : registry) (action params : json) : M pyobj :=
  fn <- lift (operations_get _operations action) ;;
  match fn with
  | None =>
      raise (Exn OtherException ("Unknown operation: " +:+ py_str action))
  | Some (name, fn) =>
      let params := if truthy params then params else JDict [] in
      if is_coroutine fn then call name fn params else call name fn params
  end.

(** [self.loop.run_until_complete(coro)] *)
Definition run_until_complete {A} (coro : M A) : M A :=
  fun s =>
    if loop_closed (fst s)
    then (Raise (Exn OtherException (err_text EventLoopClosed)), s, [])
    else coro s.

(** *** Publishing *)

(** [self.client.publish(topic, json.dumps(packet), qos=qos, retain=retain)] *)
Definition client_publish (topic : string) (packet : json) (qos : Z)
  (retain : bool) : M unit :=
  emit (EvPublish topic packet qos retain).

Definition response_packet (id : string) (timestamp : Z) (request_id data : json)
  : json :=
  JDict [("type", JStr "response"); ("id", JStr id);
         ("timestamp", JInt timestamp);
         ("payload", JDict [("requestId", request_id); ("data", data)])].

Definition error_packet (id : string) (timestamp : Z) (request_id : json)
  (message : string) : json :=
  JDict [("type", JStr "error"); ("id", JStr id);
         ("timestamp", JInt timestamp);
         ("payload", JDict [("requestId", request_id);
                            ("message", JStr message)])].

Definition status_packet (id : string) (timestamp : Z) (status : string)
  (operations : list string) : json :=
  JDict [("type", JStr "status"); ("id", JStr id);
         ("timestamp", JInt timestamp);
         ("payload", JDict [("status", JStr status);
                            ("operations", JList (JStr <$> operations));
                            ("clientId", JStr MQTT_CLIENT_ID)])].

Definition _publish_response (request_id : json) (data : pyobj) : M unit :=
  id <- in_world uuid4 ;;
  timestamp <- in_world time_ms ;;
  match data with
  | Json d =>
      client_publish TOPICS_RESPONSE
        (response_packet id timestamp request_id d) 1 false
  | NotJson dumps_error => raise (Exn OtherException dumps_error)
  end.

Definition _publish_error (request_id : json) (message : string) : M unit :=
  id <- in_world uuid4 ;;
  timestamp <- in_world time_ms ;;
  client_publish TOPICS_RESPONSE
    (error_packet id timestamp request_id message) 1 false.

Definition _publish_status (_operations : registry) (status : string) : M unit :=
  id <- in_world uuid4 ;;
  timestamp <- in_world time_ms ;;
  client_publish TOPICS_STATUS
    (status_packet id timestamp status (list_operations _operations)) 1 true.

(** *** [_on_connect] and [_on_message] *)

Definition _on_connect (_operations : registry) (reason_code : Z) : M unit :=
  if Z.eqb reason_code 0
  then emit (EvSubscribe TOPICS_REQUEST 1) ;;;
       _publish_status _operations "online"
  else ret tt.

(** The body of the [try] once [data] is bound. *)
Definition _on_message_try (_operations : registry) (data : json) : M unit :=
  request_id <- lift (py_get data "id" JNull) ;;
  payload <- lift (py_get data "payload" (JDict [])) ;;
  action <- lift (py_get payload "action" JNull) ;;
  params <- lift (py_get payload "params" (JDict [])) ;;
  if negb (truthy action)
  then _publish_error request_id "Missing 'action' in payload"
  else
    lift (slice8 request_id) ;;;
    result <- run_until_complete (execute _operations action params) ;;
    _publish_response request_id result.

(** The two [except] clauses; [data] is [None] when the exception came
    before [data] was bound (the test ['data' in dir()] is false). *)
Definition _on_message_except (data : option json) (e : exn) : M unit :=
  match exn_cls e with
  | JSONDecodeError => ret tt
  | OtherException =>
      request_id <- match data with
                    | Some d => lift (py_get d "id" JNull)
                    | None => ret JNull
                    end ;;
      if truthy request_id
      then _publish_error request_id (exn_str e)
      else ret tt
  | KeyboardInterrupt | SystemExit => raise e
  end.

Definition _on_message (_operations : registry) (msg : mqtt_message) : M unit :=
  if negb (String.eqb (topic msg) TOPICS_REQUEST) then ret tt
  else
    match decode_loads (payload msg) with
    | Raise e => _on_message_except None e
    | Ok data =>
        try_except (_on_message_try _operations data)
                   (_on_message_except (Some data))
    end.

(** The network thread of the client hands the inbound messages to
    [_on_message] one after the other; an exception that leaves
    [_on_message] ends the thread. *)
Fixpoint deliver (_operations : registry) (msgs : list mqtt_message) : M unit :=
  match msgs with
  | [] => ret tt
  | msg :: rest => _on_message _operations msg ;;; deliver _operations rest
  end.

(** *** [start], [stop] and [main] *)

Definition set_running (b : bool) : M unit :=
  fun s =>
    (Ok tt, ({| running := b; loop_closed := loop_closed (fst s) |}, snd s), []).

(** [self.loop.close()] *)
Definition loop_close : M unit :=
  fun s =>
    (Ok tt, ({| running := running (fst s); loop_closed := true |}, snd s),
     [EvLoopClose]).

Definition stop (_operations : registry) : M unit :=
  set_running false ;;;
  _publish_status _operations "offline" ;;;
  emit (EvSleep 500) ;;;
  emit EvLoopStop ;;;
  emit EvDisconnect ;;;
  loop_close.

(** [start]: [_operations] is the registry [operations.load_all()] has
    filled; [serving] is what happens while the main thread sits in
    [while self.running: time.sleep(1)]. *)
Definition start (_operations : registry) (serving : M unit) : M unit :=
  emit (EvWsSetOptions "/") ;;;
  emit (EvConnect MQTT_BROKER_HOST MQTT_BROKER_PORT) ;;;
  set_running true ;;;
  emit EvLoopStart ;;;
  try_finally
    (try_except serving
       (fun e => match exn_cls e with
                 | KeyboardInterrupt => ret tt
                 | _ => raise e
                 end))
    (stop _operations).

(** [signal_handler] of [main]: [agent.stop(); sys.exit(0)]. *)
Definition signal_handler (_operations : registry) : M unit :=
  stop _operations ;;; raise (Exn SystemExit "0").

(** ** [run_command]: [operations/shell.py] *)

Definition float_gt_int (f : pyfloat) (n : Z) : bool :=
  match f with
  | FNan => false
  | FInf negative => negb negative
  | FFinite q => negb (Qle_bool q (inject_Z n))
  end.

(** [n < v] for an [int] [n], as [min] evaluates it. *)
Definition int_lt (n : Z) (v : json) : result bool :=
  match v with
  | JBool b => Ok (Z.ltb n (if b then 1 else 0))
  | JInt z => Ok (Z.ltb n z)
  | JFloat f => Ok (float_gt_int f n)
  | _ => interp_raise (LtNotSupported (type_name v))
  end.

(** [min(v, n)]: [v], unless [n < v]. *)
Definition py_min (v : json) (n : Z) : result json :=
  match int_lt n v with
  | Ok true => Ok (JInt n)
  | Ok false => Ok v
  | Raise e => Raise e
  end.

(** A [str] stands as its UTF-8 bytes, and [len] and slices count code
    points.  A code point is one byte that starts a sequence, followed by its
    continuation bytes, which are the bytes 10xxxxxx. *)
Definition is_continuation (c : ascii) : bool :=
  Nat.leb 128 (nat_of_ascii c) && Nat.ltb (nat_of_ascii c) 192.

(** [len(s)] *)
Fixpoint py_len (s : string) : nat :=
  match s with
  | EmptyString => O
  | String c rest =>
      if is_continuation c then py_len rest else S (py_len rest)
  end.

(** The first [n] code points of [s], each with its continuation bytes. *)
Fixpoint take_points (n : nat) (s : string) : string :=
  match s with
  | EmptyString => EmptyString
  | String c rest =>
      if is_continuation c then String c (take_points n rest)
      else
        match n with
        | O => EmptyString
        | S m => String c (take_points m rest)
        end
  end.

(** What is left of a string after a cut does not begin inside a code
    point. *)
Definition starts_point (rest : string) : bool :=
  match rest with
  | EmptyString => true
  | String c _ => negb (is_continuation c)
  end.

(** [s[:n]] *)
Definition slice_to (n : Z) (s : string) : string :=
  let len := Z.of_nat (py_len s) in
  let stop := if Z.ltb n 0 then Z.max 0 (len + n) else Z.min n len in
  take_points (Z.to_nat stop) s.

Definition run_command (params : json) (w : World)
  : handler_result * World * list os_event :=
  match py_get params "command" JNull with
  | Raise e => (Raised e, w, [])
  | Ok command =>
      if negb (truthy command)
      then (Raised (Exn OtherException "command is required"), w, [])
      else
        match py_get params "timeout" (JInt SHELL_COMMAND_TIMEOUT) with
        | Raise e => (Raised e, w, [])
        | Ok timeout =>
            match py_min timeout 120 with
            | Raise e => (Raised e, w, [])
            | Ok timeout =>
                let '(r, w') := subprocess_run command timeout w in
                (match r with
                 | RunRaised e => Raised e
                 | Completed out err returncode =>
                     Returned (Json (JDict [
                       ("stdout", JStr (slice_to SHELL_MAX_OUTPUT_SIZE out));
                       ("stderr", JStr (slice_to SHELL_MAX_OUTPUT_SIZE err));
                       ("return_code", JInt returncode)]))
                 end,
                 w',
                 [SubprocessRun command timeout])
            end
        end
  end.

(** [@operation("run_command")] *)
Definition register_run_command (_operations : registry) : registry :=
  operation "run_command" (Handler false run_command) _operations.

(** ** [load_all] *)

(** The names the modules register with [@operation], in the order in which
    [load_all] imports the modules: [system], [process], [window],
    [clipboard], [shell], [app], [media]. *)
Definition module_operations : list string :=
  ["system_info"; "notification";
   "list_processes"; "kill_process";
   "list_windows"; "focus_window"; "minimize_window"; "maximize_window";
   "close_window";
   "get_clipboard"; "set_clipboard";
   "run_command";
   "open_app"; "open_url";
   "screenshot"; "get_volume"; "set_volume"].

(** [load_all]: each import runs the decorators of its module.  [defined]
    gives the function a module defines under a name; the one of [shell] is
    [run_command] above, the others act on the machine in ways not followed
    here. *)
Definition load_all (defined : string -> handler World) (_operations : registry)
  : registry :=
  fold_left
    (fun ops name =>
       operation name
         (if String.eqb name "run_command"
          then Handler false run_command
          else defined name)
         ops)
    module_operations _operations.

(** ** Reading a run *)

(** What a publish draws from the machine: the packet's [id], then its
    [timestamp]. *)
Definition stamp_id (w : World) : string := fst (uuid4 w).
Definition stamp_time (w : World) : Z := fst (time_ms (snd (uuid4 w))).
Definition stamp_world (w : World) : World := snd (time_ms (snd (uuid4 w))).

(** [packet[k]] and [packet["payload"][k]] of a published packet. *)
Definition packet_field (k : string) (packet : json) : option json :=
  match packet with
  | JDict kvs => dict_get k kvs
  | _ => None
  end.

Definition payload_field (k : string) (packet : json) : option json :=
  match packet_field "payload" packet with
  | Some p => packet_field k p
  | None => None
  end.

(** The publishes of a trace: topic, packet, qos, retain. *)
Definition published (t : list event) : list (string * json * Z * bool) :=
  omap (fun ev => match ev with
                  | EvPublish topic packet qos retain =>
                      Some (topic, packet, qos, retain)
                  | _ => None
                  end) t.

(** [data.get("id")] when [data] is a dict; [None] stands for the id of
    anything else. *)
Definition id_of (data : json) : json :=
  match data with
  | JDict kvs => dict_get_or "id" kvs JNull
  | _ => JNull
  end.

(** The [id] of the request a message carries. *)
Definition request_id_of (msg : mqtt_message) : json :=
  match decode_loads (payload msg) with
  | Ok data => id_of data
  | Raise _ => JNull
  end.

(** The [params] a handler is called with, for a request payload [pl]:
    [payload.get("params", {})], then [params or {}]. *)
Definition params_of (pl : list (string * json)) : json :=
  let params := dict_get_or "params" pl (JDict []) in
  if truthy params then params else JDict [].

(** The [requestId]s of the envelopes published to the response topic, in
    the order of their publishing. *)
Definition reply_ids (t : list event) : list json :=
  omap (fun ev => match ev with
                  | EvPublish topic packet _ _ =>
                      if String.eqb topic TOPICS_RESPONSE
                      then payload_field "requestId" packet
                      else None
                  | _ => None
                  end) t.

(** A Response or Error Envelope that answers [request_id]. *)
Definition is_reply (request_id : json) (ev : event) : Prop :=
  exists id timestamp,
    (exists data,
        ev = EvPublish TOPICS_RESPONSE
               (response_packet id timestamp request_id data) 1 false)
    \/ (exists message,
        ev = EvPublish TOPICS_RESPONSE
               (error_packet id timestamp request_id message) 1 false).

(** The events of one handler call, or none. *)
Definition handler_events (t : list event) : Prop :=
  t = [] \/ exists name params evs, t = EvCall name params :: map EvOS evs.

(** What one request leaves in the trace: at most one handler call, then at
    most one reply, which answers [request_id]. *)
Definition message_block (request_id : json) (t : list event) : Prop :=
  exists calls replies,
    t = (calls ++ replies)%list
    /\ handler_events calls
    /\ (replies = [] \/ exists ev, replies = [ev] /\ is_reply request_id ev).

(** A request that can be answered: it is on the request topic and decodes
    to a dict with a non-empty string [id]. *)
Definition answerable (msg : mqtt_message) : Prop :=
  topic msg = TOPICS_REQUEST
  /\ exists kvs rid,
       decode_loads (payload msg) = Ok (JDict kvs)
       /\ dict_get "id" kvs = Some (JStr rid)
       /\ rid <> "".

(** The registered handlers fail with an [Exception] that is no
    [JSONDecodeError]. *)
Definition plain_failures (_operations : registry) : Prop :=
  forall (name : string) (fn : handler World) (params : json) (w w1 : World)
         (e : exn) (evs : list os_event),
    lookup_operation _operations name = Some fn ->
    run fn params w = (Raised e, w1, evs) ->
    exn_cls e = OtherException.

(** The entry points the MQTT client and [main] call on a constructed
    agent. *)
Inductive entry_point :=
| OnConnect (reason_code : Z)
| OnMessage (msg : mqtt_message)
| Stop.

Definition enter (_operations : registry) (p : entry_point) : M unit :=
  match p with
  | OnConnect reason_code => _on_connect _operations reason_code
  | OnMessage msg => _on_message _operations msg
  | Stop => stop _operations
  end.

(** The entry points called one after the other, until one of them raises. *)
Fixpoint enter_all (_operations : registry) (ps : list entry_point) : M unit :=
  match ps with
  | [] => ret tt
  | p :: rest => enter _operations p ;;; enter_all _operations rest
  end.

(** A publish that is a Status Envelope (by its topic or by its [type])
    lists the sorted registered names and is retained. *)
Definition status_publish_ok (_operations : registry) (ev : event) : Prop :=
  match ev with
  | EvPublish topic packet qos retain =>
      topic = TOPICS_STATUS \/ packet_field "type" packet = Some (JStr "status") ->
      payload_field "operations" packet
        = Some (JList (JStr <$> list_operations _operations))
      /\ retain = true
  | _ => True
  end.

End Agent.

(** ** The other handlers: [clipboard.py], [app.py], [media.py], [window.py],
    [process.py] *)

(** A window of [pygetwindow] is known by its handle [_hWnd]; its title, its
    box and its visibility are read from the machine each time they are asked
    for. *)
Record window_box := Box {
  box_left : Z;
  box_top : Z;
  box_width : Z;
  box_height : Z
}.

(** The library calls these handlers make, with the arguments they give.
    [SetMasterVolumeLevelScalar percent] is the call with [percent / 100]. *)
Inductive os_call :=
| PyperclipPaste
| PyperclipCopy (text : json)
| OsStartfile (path : json)
| SubprocessPopen (argv : list json)
| WebbrowserOpen (url : json)
| GetVolumeInterface
| SetMasterVolumeLevelScalar (percent : Z)
| SetMute (muted : bool)
| GetMasterVolumeLevelScalar
| GetMute
| GetAllWindows
| WindowActivate (hwnd : Z)
| WindowMinimize (hwnd : Z)
| WindowMaximize (hwnd : Z)
| WindowClose (hwnd : Z)
| PsutilProcess (pid : json)
| ProcessName (pid : Z)
| ProcessTerminate (pid : Z)
| ProcessIter
| ProcessNext (pid : Z).

(** What [proc.terminate()] ends in: it returns, it raises one of the two
    exceptions of [psutil] that the loop of [kill_process] catches
    ([NoSuchProcess], [AccessDenied]), or it raises something else. *)
Inductive terminate_result :=
| Terminated
| GoneOrDenied (e : exn)
| TerminateRaised (e : exn).

(** [proc.info] of a process that [process_iter(["pid", "name"])] yields; the
    name is [None] when it could not be read. *)
Record proc_info := ProcInfo { info_pid : Z; info_name : option string }.

(** Errors of the interpreter in these handlers; their text is CPython's. *)
Inductive desktop_error :=
| NoAttributeLower (ty : string)   (* v.lower() on something that is no str *)
| ConcatList (ty : string)         (* [path] + v where v is no list *)
| IntOfNan                         (* int(float('nan')) *)
| IntOfInfinity                    (* int(float('inf')) *)
| IntOfText (text : string)        (* int(s) on a string that is no literal *)
| IntOfType (ty : string).         (* int(v) on None, a list or a dict *)

(** The libraries behind the handlers, over the machine [World]: what each
    call returns or raises.  [gw_getAllWindows] gives the handles of the
    windows; [win_title], [win_box] and [win_visible] are the attributes
    [title], [left]/[top]/[width]/[height] and [visible] of a window, as the
    machine has them at the time of reading.  [psutil_Process] is
    [psutil.Process(pid)], given by the pid of the process it stands for.
    The generator [psutil.process_iter] is [process_iter], the pids it will
    visit, and [process_next], what it yields when it comes to a pid: the
    [info] of the process, or nothing when the process has gone.  [vol_level] is
    [round(vol.GetMasterVolumeLevelScalar() * 100)], [vol_mute] is
    [bool(vol.GetMute())], [int_of_text] is [int(s)] on a [str] and
    [str_lower] is [s.lower()]. *)
Class Desktop (World : Type) := {
  pyperclip_paste : World -> result string * World;
  pyperclip_copy : json -> World -> result unit * World;
  os_name_is_nt : bool;
  os_startfile : json -> World -> result unit * World;
  subprocess_Popen : list json -> World -> result unit * World;
  webbrowser_open : json -> World -> result bool * World;
  HAS_PYCAW : bool;
  volume_interface : World -> result unit * World;
  vol_set_level : Z -> World -> result unit * World;
  vol_set_mute : bool -> World -> result unit * World;
  vol_level : World -> result Z * World;
  vol_mute : World -> result bool * World;
  HAS_PYGETWINDOW : bool;
  gw_getAllWindows : World -> result (list Z) * World;
  win_title : Z -> World -> string;
  win_box : Z -> World -> window_box;
  win_visible : Z -> World -> bool;
  win_activate : Z -> World -> result unit * World;
  win_minimize : Z -> World -> result unit * World;
  win_maximize : Z -> World -> result unit * World;
  win_close : Z -> World -> result unit * World;
  psutil_Process : json -> World -> result Z * World;
  proc_name : Z -> World -> result string * World;
  proc_terminate : Z -> World -> terminate_result * World;
  process_iter : World -> list Z * World;
  process_next : Z -> World -> option proc_info * World;
  int_of_text : string -> option Z;
  str_lower : string -> string;
  desktop_text : desktop_error -> string
}.

(** [needle in hay] on strings. *)
Fixpoint str_contains (needle hay : string) : bool :=
  String.prefix needle hay
  || match hay with
     | EmptyString => false
     | String _ rest => str_contains needle rest
     end.

(** [z == v] for an [int] [z]. *)
Definition int_eq (z : Z) (v : json) : bool :=
  match v with
  | JBool b => Z.eqb z (if b then 1 else 0)
  | JInt z' => Z.eqb z z'
  | JFloat (FFinite q) => Qeq_bool (inject_Z z) q
  | _ => false
  end.

(** [v is None] *)
Definition is_none (v : json) : bool :=
  match v with
  | JNull => true
  | _ => false
  end.

Section Handlers.

Context {World : Type} `{!Platform World} `{!Desktop World}.

(** *** The machine, exceptions and the calls made *)

Definition H (A : Type) : Type := World -> result A * World * list os_call.

Definition hret {A} (x : A) : H A := fun w => (Ok x, w, []).

Definition hraise {A} (e : exn) : H A := fun w => (Raise e, w, []).

Definition hbind {A B} (c : H A) (k : A -> H B) : H B :=
  fun w =>
    match c w with
    | (Ok x, w1, cs1) => let '(r, w2, cs2) := k x w1 in (r, w2, (cs1 ++ cs2)%list)
    | (Raise e, w1, cs1) => (Raise e, w1, cs1)
    end.

Definition hlift {A} (r : result A) : H A := fun w => (r, w, []).

(** The library call [c], done by [f]. *)
Definition os {A} (c : os_call) (f : World -> result A * World) : H A :=
  fun w => let '(r, w1) := f w in (r, w1, [c]).

Notation "x <- c ;; k" := (hbind c (fun x => k))
  (at level 100, c at next level, right associativity).
Notation "c ;;; k" := (hbind c (fun _ => k))
  (at level 100, right associativity).

Definition desktop_raise {A} (e : desktop_error) : result A :=
  Raise (Exn OtherException (desktop_text e)).

Definition value_error {A} (message : string) : H A :=
  hraise (Exn OtherException message).

(** A handler body as the call [fn(params)]: its calls are kept beside the
    result. *)
Definition finish (body : H json) (w : World)
  : handler_result * World * list os_call :=
  let '(r, w1, cs) := body w in
  (match r with Ok v => Returned (Json v) | Raise e => Raised e end, w1, cs).

(** The same as a registered handler. *)
Definition as_handler (body : json -> H json) : handler World :=
  {| is_coroutine := false;
     run := fun params w =>
              let '(r, w1, _) := finish (body params) w in (r, w1, []) |}.

(** *** [clipboard.py] *)

Definition get_clipboard (params : json) : H json :=
  text <- os PyperclipPaste pyperclip_paste ;;
  hret (JDict [("text", JStr text)]).

Definition set_clipboard (params : json) : H json :=
  text <- hlift (py_get params "text" JNull) ;;
  if is_none text then value_error "text is required"
  else
    os (PyperclipCopy text) (pyperclip_copy text) ;;;
    hret (JDict [("success", JBool true)]).

(** *** [app.py] *)

(** [[path] + args] *)
Definition list_plus (path args : json) : result (list json) :=
  match args with
  | JList l => Ok (path :: l)
  | _ => desktop_raise (ConcatList (type_name args))
  end.

Definition open_app (params : json) : H json :=
  path <- hlift (py_get params "path" JNull) ;;
  args <- hlift (py_get params "args" (JList [])) ;;
  if negb (truthy path) then value_error "path is required"
  else
    (if os_name_is_nt
     then os (OsStartfile path) (os_startfile path)
     else argv <- hlift (list_plus path args) ;;
          os (SubprocessPopen argv) (subprocess_Popen argv)) ;;;
    hret (JDict [("success", JBool true)]).

Definition open_url (params : json) : H json :=
  url <- hlift (py_get params "url" JNull) ;;
  if negb (truthy url) then value_error "url is required"
  else
    os (WebbrowserOpen url) (webbrowser_open url) ;;;
    hret (JDict [("success", JBool true)]).

(** *** [media.py] *)

(** [int(v)] *)
Definition py_int (v : json) : result Z :=
  match v with
  | JBool b => Ok (if b then 1 else 0)
  | JInt z => Ok z
  | JFloat FNan => desktop_raise IntOfNan
  | JFloat (FInf _) => desktop_raise IntOfInfinity
  | JFloat (FFinite q) => Ok (Z.quot (Qnum q) (Zpos (Qden q)))
  | JStr text =>
      match int_of_text text with
      | Some z => Ok z
      | None => desktop_raise (IntOfText text)
      end
  | _ => desktop_raise (IntOfType (type_name v))
  end.

Definition _get_volume_interface : H unit :=
  if HAS_PYCAW then os GetVolumeInterface volume_interface
  else hraise (Exn OtherException
                 "pycaw is not installed - volume operations unavailable").

Definition get_volume (params : json) : H json :=
  _get_volume_interface ;;;
  level <- os GetMasterVolumeLevelScalar vol_level ;;
  muted <- os GetMute vol_mute ;;
  hret (JDict [("level", JInt level); ("muted", JBool muted)]).

Definition set_volume (params : json) : H json :=
  _get_volume_interface ;;;
  level <- hlift (py_get params "level" JNull) ;;
  muted <- hlift (py_get params "muted" JNull) ;;
  (if is_none level then hret tt
   else n <- hlift (py_int level) ;;
        os (SetMasterVolumeLevelScalar (Z.max 0 (Z.min 100 n)))
           (vol_set_level (Z.max 0 (Z.min 100 n)))) ;;;
  (if is_none muted then hret tt
   else os (SetMute (truthy muted)) (vol_set_mute (truthy muted))) ;;;
  level <- os GetMasterVolumeLevelScalar vol_level ;;
  muted <- os GetMute vol_mute ;;
  hret (JDict [("level", JInt level); ("muted", JBool muted)]).

(** *** [window.py] *)

Definition _require_pygetwindow : H unit :=
  if HAS_PYGETWINDOW then hret tt
  else hraise (Exn OtherException
                 "pygetwindow is not installed - window operations unavailable").

(** [[w for w in windows if title.lower() in w.title.lower()]]: [title.lower()]
    is evaluated for each window, so a title that is no [str] raises at the
    first window and not at all when there is none. *)
Definition title_matches (title : json) (windows : list Z) (w : World)
  : result (list Z) :=
  match title with
  | JStr text =>
      Ok (filter (fun hwnd =>
                    str_contains (str_lower text) (str_lower (win_title hwnd w))
                    = true)
                 windows)
  | _ =>
      match windows with
      | [] => Ok []
      | _ :: _ => desktop_raise (NoAttributeLower (type_name title))
      end
  end.

Definition _find_window (title hwnd : json) : H Z :=
  _require_pygetwindow ;;;
  if truthy hwnd then
    windows <- os GetAllWindows gw_getAllWindows ;;
    match find (fun win => int_eq win hwnd) windows with
    | Some win => hret win
    | None =>
        value_error ("Window with hwnd=" +:+ py_str hwnd +:+ " not found")
    end
  else if truthy title then
    windows <- os GetAllWindows gw_getAllWindows ;;
    matches <- (fun w => hlift (title_matches title windows w) w) ;;
    match matches with
    | [] => value_error ("No window matching title '" +:+ py_str title +:+ "'")
    | win :: _ => hret win
    end
  else value_error "title or hwnd is required".

(** The dict [list_windows] builds for a window, read at [w]. *)
Definition window_dict (w : World) (win : Z) : json :=
  JDict [("title", JStr (win_title win w)); ("hwnd", JInt win);
         ("x", JInt (box_left (win_box win w)));
         ("y", JInt (box_top (win_box win w)));
         ("width", JInt (box_width (win_box win w)));
         ("height", JInt (box_height (win_box win w)));
         ("visible", JBool (win_visible win w))].

Definition list_windows (params : json) : H json :=
  _require_pygetwindow ;;;
  windows <- os GetAllWindows gw_getAllWindows ;;
  fun w =>
    hret (JDict [("windows",
                  JList (window_dict w
                           <$> filter (fun win => win_title win w <> "")
                                      windows))]) w.

(** [w = _find_window(params.get("title"), params.get("hwnd"))] *)
Definition find_window_of (params : json) : H Z :=
  title <- hlift (py_get params "title" JNull) ;;
  hwnd <- hlift (py_get params "hwnd" JNull) ;;
  _find_window title hwnd.

(** [{"success": True, "title": w.title}], with the title read at [w]. *)
Definition success_title (win : Z) : H json :=
  fun w => hret (JDict [("success", JBool true);
                        ("title", JStr (win_title win w))]) w.

Definition focus_window (params : json) : H json :=
  win <- find_window_of params ;;
  os (WindowActivate win) (win_activate win) ;;;
  success_title win.

Definition minimize_window (params : json) : H json :=
  win <- find_window_of params ;;
  os (WindowMinimize win) (win_minimize win) ;;;
  success_title win.

Definition maximize_window (params : json) : H json :=
  win <- find_window_of params ;;
  os (WindowMaximize win) (win_maximize win) ;;;
  success_title win.

(** [title = w.title] before [w.close()]. *)
Definition close_window (params : json) : H json :=
  win <- find_window_of params ;;
  reply <- success_title win ;;
  os (WindowClose win) (win_close win) ;;;
  hret reply.

(** *** [process.py]: [kill_process] *)

(** [proc.terminate()] where an exception is not caught. *)
Definition terminate_or_raise (pid : Z) : H unit :=
  os (ProcessTerminate pid)
     (fun w => let '(r, w1) := proc_terminate pid w in
               (match r with
                | Terminated => Ok tt
                | GoneOrDenied e | TerminateRaised e => Raise e
                end, w1)).

(** [info_name.lower() == name.lower()] *)
Definition same_name (info_name : string) (name : json) : result bool :=
  match name with
  | JStr text => Ok (String.eqb (str_lower info_name) (str_lower text))
  | _ => desktop_raise (NoAttributeLower (type_name name))
  end.

(** The body of the loop for one process that the generator has yielded:
    what it adds to [killed]. *)
Definition kill_if_named (name : json) (info : proc_info) : H (list json) :=
  match info_name info with
  | None => hret []
  | Some n =>
      if String.eqb n "" then hret []
      else
        same <- hlift (same_name n name) ;;
        if same then
          fun w =>
            let '(r, w1) := proc_terminate (info_pid info) w in
            (match r with
             | Terminated =>
                 Ok [JDict [("pid", JInt (info_pid info)); ("name", JStr n)]]
             | GoneOrDenied _ => Ok []
             | TerminateRaised e => Raise e
             end, w1, [ProcessTerminate (info_pid info)])
        else hret []
  end.

(** [for proc in psutil.process_iter(["pid", "name"]): ...] over the pids the
    generator visits. *)
Fixpoint kill_by_name (name : json) (pids : list Z) : H (list json) :=
  match pids with
  | [] => hret []
  | pid :: rest =>
      info <- os (ProcessNext pid)
                 (fun w => let '(i, w1) := process_next pid w in (Ok i, w1)) ;;
      killed <- match info with
                | Some i => kill_if_named name i
                | None => hret []
                end ;;
      more <- kill_by_name name rest ;;
      hret (killed ++ more)%list
  end.

Definition kill_process (params : json) : H json :=
  pid <- hlift (py_get params "pid" JNull) ;;
  name <- hlift (py_get params "name" JNull) ;;
  if negb (truthy pid) && negb (truthy name)
  then value_error "pid or name is required"
  else
    killed <-
      (if truthy pid then
         proc <- os (PsutilProcess pid) (psutil_Process pid) ;;
         proc_name <- os (ProcessName proc) (proc_name proc) ;;
         terminate_or_raise proc ;;;
         hret [JDict [("pid", pid); ("name", JStr proc_name)]]
       else
         pids <- os ProcessIter
                    (fun w => let '(l, w1) := process_iter w in (Ok l, w1)) ;;
         kill_by_name name pids) ;;
    match killed with
    | [] =>
        value_error ("No process found matching: pid=" +:+ py_str pid
                     +:+ ", name=" +:+ py_str name)
    | _ :: _ => hret (JDict [("success", JBool true); ("killed", JList killed)])
    end.

(** What [load_all] binds to the names of these modules. *)
Definition defined_here (others : string -> handler World) (name : string)
  : handler World :=
  if String.eqb name "get_clipboard" then as_handler get_clipboard
  else if String.eqb name "set_clipboard" then as_handler set_clipboard
  else if String.eqb name "open_app" then as_handler open_app
  else if String.eqb name "open_url" then as_handler open_url
  else if String.eqb name "get_volume" then as_handler get_volume
  else if String.eqb name "set_volume" then as_handler set_volume
  else if String.eqb name "list_windows" then as_handler list_windows
  else if String.eqb name "focus_window" then as_handler focus_window
  else if String.eqb name "minimize_window" then as_handler minimize_window
  else if String.eqb name "maximize_window" then as_handler maximize_window
  else if String.eqb name "close_window" then as_handler close_window
  else if String.eqb name "kill_process" then as_handler kill_process
  else others name.

(** What a handler body leaves: its result, the machine, its calls. *)
Definition hresult {A} (o : result A * World * list os_call) : result A :=
  fst (fst o).
Definition hworld {A} (o : result A * World * list os_call) : World :=
  snd (fst o).
Definition hcalls {A} (o : result A * World * list os_call) : list os_call :=
  snd o.

End Handlers.

(** ** A concrete platform *)

(** The machine is a clock; [uuid4] and [time.time] advance it. *)
Definition bench_uuid4 (w : Z) : string * Z :=
  ("00000000-0000-4000-8000-000000000000", w + 1).

Definition bench_time_ms (w : Z) : Z * Z := (1700000000000 + w, w + 1).

Definition bench_repr (v : json) : string :=
  match v with
  | JNull => "None"
  | JBool true => "True"
  | JBool false => "False"
  | _ => "<" +:+ type_name v +:+ ">"
  end.

(** [sleep 300] outlives every timeout; any other command ends at once. *)
Definition bench_subprocess_run (command timeout : json) (w : Z)
  : run_outcome * Z :=
  match command with
  | JStr "sleep 300" =>
      (RunRaised (Exn OtherException "Command 'sleep 300' timed out"), w + 1)
  | _ => (Completed "done" "" 0, w + 1)
  end.

(** JSON texts of the requests of the bench. *)
Definition dq : string := String (ascii_of_nat 34) EmptyString.
Definition quoted (s : string) : string := dq +:+ s +:+ dq.

Definition request_text (id : option string) (action : option string) : string :=
  "{" +:+ match id with
          | Some i => quoted "id" +:+ ": " +:+ quoted i +:+ ", "
          | None => ""
          end
      +:+ quoted "payload" +:+ ": {"
      +:+ match action with
          | Some a => quoted "action" +:+ ": " +:+ quoted a
          | None => ""
          end
      +:+ "}}".

Definition request_value (id : option string) (action : option string) : json :=
  JDict (match id with Some i => [("id", JStr i)] | None => [] end
         ++ [("payload",
              JDict match action with
                    | Some a => [("action", JStr a)]
                    | None => []
                    end)])%list.

Definition bench_requests : list (option string * option string) :=
  [(Some "r1", Some "system_info"); (Some "r2", Some "does_not_exist");
   (Some "", Some "does_not_exist"); (Some "r5", None);
   (None, Some "system_info"); (Some "r3", Some "run_command")].

(** [json.loads] on the texts of [bench_requests]; every other text of the
    bench is malformed. *)
Definition bench_decode_loads (b : list Byte.byte) : result json :=
  match
    find (fun r => String.eqb (string_of_list_byte b)
                              (request_text (fst r) (snd r)))
         bench_requests
  with
  | Some r => Ok (request_value (fst r) (snd r))
  | None => Raise (Exn JSONDecodeError "Expecting value")
  end.

#[export] Instance bench_platform : Platform Z := {|
  uuid4 := bench_uuid4;
  time_ms := bench_time_ms;
  decode_loads := bench_decode_loads;
  err_text := cpython_text;
  py_repr := bench_repr;
  subprocess_run := bench_subprocess_run;
  MQTT_BROKER_HOST := "localhost";
  MQTT_BROKER_PORT := 1893;
  MQTT_CLIENT_ID := "mycastle_desktop_4242";
  SHELL_COMMAND_TIMEOUT := 30;
  SHELL_MAX_OUTPUT_SIZE := 65536
|}.

Definition bench_request (id : option string) (action : option string)
  : mqtt_message :=
  {| topic := TOPICS_REQUEST;
     payload := list_byte_of_string (request_text id action) |}.

(** A stub [system_info] that returns [{'hostname': 'h1'}]. *)
Definition stub_system_info : handler Z :=
  {| is_coroutine := false;
     run := fun _ w => (Returned (Json (JDict [("hostname", JStr "h1")])), w, []) |}.

Definition bench_operations : gmap string (handler Z) :=
  register_run_command (operation "system_info" stub_system_info ∅).

(** The bench with room for three code points of output, where every command
    writes a word of five code points, the second of them in two bytes. *)
Definition short_output_platform : Platform Z := {|
  uuid4 := bench_uuid4;
  time_ms := bench_time_ms;
  decode_loads := bench_decode_loads;
  err_text := cpython_text;
  py_repr := bench_repr;
  subprocess_run := fun _ _ w => (Completed "héllo" "" 0, w + 1);
  MQTT_BROKER_HOST := "localhost";
  MQTT_BROKER_PORT := 1893;
  MQTT_CLIENT_ID := "mycastle_desktop_4242";
  SHELL_COMMAND_TIMEOUT := 30;
  SHELL_MAX_OUTPUT_SIZE := 3
|}.

(** Stubs for the failures of a handler: one that raises [e], and one whose
    result [json.dumps] rejects. *)
Definition stub_raising (e : exn) : handler Z :=
  {| is_coroutine := false; run := fun _ w => (Raised e, w, []) |}.

Definition stub_unserializable : handler Z :=
  {| is_coroutine := false;
     run := fun _ w =>
              (Returned (NotJson "Object of type bytes is not JSON serializable"),
               w, []) |}.

Definition failing_operations (fn : handler Z) : gmap string (handler Z) :=
  operation "system_info" fn ∅.

(** ** A concrete desktop *)

(** A machine for the other handlers: its clock, its clipboard, its windows
    (handle and title, in the order [getAllWindows] gives them), its processes
    (pid and name, in the order [process_iter] visits them) and its mixer. *)
Record desk := Desk {
  desk_clock : Z;
  desk_clipboard : string;
  desk_windows : list (Z * string);
  desk_processes : list (Z * string);
  desk_volume : Z;
  desk_muted : bool
}.

Definition desk_tick (w : desk) : desk :=
  Desk (desk_clock w + 1) (desk_clipboard w) (desk_windows w)
       (desk_processes w) (desk_volume w) (desk_muted w).

Definition desk_copy (text : string) (w : desk) : desk :=
  Desk (desk_clock w) text (desk_windows w) (desk_processes w)
       (desk_volume w) (desk_muted w).

Definition desk_close (hwnd : Z) (w : desk) : desk :=
  Desk (desk_clock w) (desk_clipboard w)
       (filter (fun win => fst win <> hwnd) (desk_windows w))
       (desk_processes w) (desk_volume w) (desk_muted w).

Definition desk_end (pid : Z) (w : desk) : desk :=
  Desk (desk_clock w) (desk_clipboard w) (desk_windows w)
       (filter (fun proc => fst proc <> pid) (desk_processes w))
       (desk_volume w) (desk_muted w).

Definition desk_level (level : Z) (w : desk) : desk :=
  Desk (desk_clock w) (desk_clipboard w) (desk_windows w) (desk_processes w)
       level (desk_muted w).

Definition desk_mute (muted : bool) (w : desk) : desk :=
  Desk (desk_clock w) (desk_clipboard w) (desk_windows w) (desk_processes w)
       (desk_volume w) muted.

(** The name under a handle or a pid. *)
Definition named (key : Z) (l : list (Z * string)) : option string :=
  snd <$> find (fun item => Z.eqb (fst item) key) l.

(** [s.lower()] on ASCII. *)
Definition ascii_lower (c : ascii) : ascii :=
  let n := nat_of_ascii c in
  if Nat.leb 65 n && Nat.leb n 90 then ascii_of_nat (n + 32) else c.

Fixpoint ascii_str_lower (s : string) : string :=
  match s with
  | EmptyString => EmptyString
  | String c rest => String (ascii_lower c) (ascii_str_lower rest)
  end.

(** [int(s)] on the decimal literals without sign, blanks or underscores. *)
Fixpoint digits_value (s : string) (acc : Z) : option Z :=
  match s with
  | EmptyString => Some acc
  | String c rest =>
      let n := Z.of_nat (nat_of_ascii c) in
      if Z.leb 48 n && Z.leb n 57
      then digits_value rest (10 * acc + (n - 48))
      else None
  end.

Definition digits_int_of_text (s : string) : option Z :=
  match s with
  | EmptyString => None
  | _ => digits_value s 0
  end.

(** The texts of CPython 3.11. *)
Definition cpython_desktop_text (e : desktop_error) : string :=
  match e with
  | NoAttributeLower ty => "'" +:+ ty +:+ "' object has no attribute 'lower'"
  | ConcatList ty =>
      "can only concatenate list (not " +:+ quoted ty +:+ ") to list"
  | IntOfNan => "cannot convert float NaN to integer"
  | IntOfInfinity => "cannot convert float infinity to integer"
  | IntOfText text =>
      "invalid literal for int() with base 10: '" +:+ text +:+ "'"
  | IntOfType ty =>
      "int() argument must be a string, a bytes-like object or a real number, not '"
      +:+ ty +:+ "'"
  end.

Definition desk_repr (v : json) : string :=
  match v with
  | JInt z => pretty z
  | JStr s => "'" +:+ s +:+ "'"
  | _ => bench_repr v
  end.

(** Requests to the desk, beside those of the bench; and two texts that are
    JSON but no request: a list, and a request whose [payload] is [null]. *)
Definition desk_requests : list (option string * option string) :=
  [(Some "r8", Some "set_clipboard"); (Some "r9", Some "get_clipboard")].

Definition null_payload_text : string :=
  "{" +:+ quoted "id" +:+ ": " +:+ quoted "r7" +:+ ", " +:+ quoted "payload"
  +:+ ": null}".

Definition desk_decode_loads (b : list Byte.byte) : result json :=
  if String.eqb (string_of_list_byte b) "[]" then Ok (JList [])
  else if String.eqb (string_of_list_byte b) null_payload_text
  then Ok (JDict [("id", JStr "r7"); ("payload", JNull)])
  else
    match
      find (fun r => String.eqb (string_of_list_byte b)
                                (request_text (fst r) (snd r)))
           desk_requests
    with
    | Some r => Ok (request_value (fst r) (snd r))
    | None => bench_decode_loads b
    end.

#[export] Instance desk_platform : Platform desk := {|
  uuid4 := fun w => (fst (bench_uuid4 (desk_clock w)), desk_tick w);
  time_ms := fun w => (fst (bench_time_ms (desk_clock w)), desk_tick w);
  decode_loads := desk_decode_loads;
  err_text := cpython_text;
  py_repr := desk_repr;
  subprocess_run :=
    fun command timeout w =>
      (fst (bench_subprocess_run command timeout (desk_clock w)), desk_tick w);
  MQTT_BROKER_HOST := "localhost";
  MQTT_BROKER_PORT := 1893;
  MQTT_CLIENT_ID := "mycastle_desktop_4242";
  SHELL_COMMAND_TIMEOUT := 30;
  SHELL_MAX_OUTPUT_SIZE := 65536
|}.

(** The libraries on the desk.  There is no browser, so [webbrowser.open]
    returns [False]; [pyperclip.copy] takes strings; a window that is closed
    leaves the list, and the title of a handle that is not listed is empty;
    process 1 may not be ended, any other process that is there ends at
    once. *)
#[export] Instance desk_desktop : Desktop desk := {|
  pyperclip_paste := fun w => (Ok (desk_clipboard w), w);
  pyperclip_copy :=
    fun text w =>
      match text with
      | JStr s => (Ok tt, desk_copy s w)
      | _ =>
          (Raise (Exn OtherException
                    ("only str, int, float, and bool values can be copied to the clipboard, not "
                     +:+ type_name text)), w)
      end;
  os_name_is_nt := false;
  os_startfile := fun _ w => (Ok tt, w);
  subprocess_Popen := fun _ w => (Ok tt, w);
  webbrowser_open := fun _ w => (Ok false, w);
  HAS_PYCAW := true;
  volume_interface := fun w => (Ok tt, w);
  vol_set_level := fun level w => (Ok tt, desk_level level w);
  vol_set_mute := fun muted w => (Ok tt, desk_mute muted w);
  vol_level := fun w => (Ok (desk_volume w), w);
  vol_mute := fun w => (Ok (desk_muted w), w);
  HAS_PYGETWINDOW := true;
  gw_getAllWindows := fun w => (Ok (fst <$> desk_windows w), w);
  win_title := fun hwnd w => default "" (named hwnd (desk_windows w));
  win_box := fun _ _ => Box 0 0 800 600;
  win_visible := fun _ _ => true;
  win_activate := fun _ w => (Ok tt, w);
  win_minimize := fun _ w => (Ok tt, w);
  win_maximize := fun _ w => (Ok tt, w);
  win_close := fun hwnd w => (Ok tt, desk_close hwnd w);
  psutil_Process :=
    fun pid w =>
      match pid with
      | JInt p =>
          match named p (desk_processes w) with
          | Some _ => (Ok p, w)
          | None =>
              (Raise (Exn OtherException
                        ("process PID not found (pid=" +:+ pretty p +:+ ")")), w)
          end
      | _ =>
          (Raise (Exn OtherException
                    ("pid must be an integer (got " +:+ desk_repr pid +:+ ")")),
           w)
      end;
  proc_name :=
    fun p w =>
      match named p (desk_processes w) with
      | Some n => (Ok n, w)
      | None =>
          (Raise (Exn OtherException
                    ("process no longer exists (pid=" +:+ pretty p +:+ ")")), w)
      end;
  proc_terminate :=
    fun p w =>
      if Z.eqb p 1
      then (GoneOrDenied (Exn OtherException "(pid=1)"), w)
      else
        match named p (desk_processes w) with
        | Some _ => (Terminated, desk_end p w)
        | None =>
            (GoneOrDenied
               (Exn OtherException
                  ("process no longer exists (pid=" +:+ pretty p +:+ ")")), w)
        end;
  process_iter := fun w => (fst <$> desk_processes w, w);
  process_next :=
    fun p w =>
      ((fun n => ProcInfo p (Some n)) <$> named p (desk_processes w), w);
  int_of_text := digits_int_of_text;
  str_lower := ascii_str_lower;
  desktop_text := cpython_desktop_text
|}.

Definition desk0 : desk :=
  {| desk_clock := 0;
     desk_clipboard := "copied before";
     desk_windows := [(101, "Terminal"); (102, "Notes - Notepad"); (103, "");
                      (104, "notepad++")];
     desk_processes := [(1, "systemd"); (40, "Notepad.exe"); (41, "python3");
                        (42, "notepad.exe")];
     desk_volume := 50;
     desk_muted := false |}.

(** The modules that are not followed here are stubs that return [{}]. *)
Definition desk_others (name : string) : handler desk :=
  {| is_coroutine := false;
     run := fun _ w => (Returned (Json (JDict [])), w, []) |}.

Definition desk_operations : gmap string (handler desk) :=
  load_all (defined_here desk_others) ∅.

(** ** What goes over the client *)

(** The discipline of the agent on its client: it publishes with qos 1, to
    the response topic without the retained flag or to the status topic with
    it, and it subscribes to the request topic only, with qos 1. *)
Definition wire_ok (ev : event) : Prop :=
  match ev with
  | EvPublish topic packet qos retain =>
      qos = 1
      /\ ((topic = TOPICS_RESPONSE /\ retain = false)
          \/ (topic = TOPICS_STATUS /\ retain = true))
  | EvSubscribe topic qos => topic = TOPICS_REQUEST /\ qos = 1
  | _ => True
  end.

(** * Properties *)

(** ** The registry *)

Section RegistryFacts.

Context {World : Type}.

Implicit Types (ops : gmap string (handler World)) (fn : handler World).

Lemma list_operations_perm ops :
  list_operations ops ≡ₚ (map_to_list ops).*1.
Proof. apply merge_sort_Permutation. Qed.

Lemma list_operations_NoDup ops : NoDup (list_operations ops).
Proof. rewrite list_operations_perm. apply NoDup_fst_map_to_list. Qed.

Lemma list_operations_sorted ops :
  StronglySorted String.le (list_operations ops).
Proof. apply StronglySorted_merge_sort; apply _. Qed.

Lemma elem_of_list_operations ops (name : string) :
  name ∈ list_operations ops <-> is_Some (lookup_operation ops name).
Proof.
  unfold lookup_operation.
  rewrite list_operations_perm, list_elem_of_fmap. split.
  - intros [[k fn] [-> Hin]]. apply elem_of_map_to_list in Hin. simpl. eauto.
  - intros [fn Hfn]. exists (name, fn). split; [done|].
    by apply elem_of_map_to_list.
Qed.

(** A name that is registered has one item in the dict. *)
Lemma entries_for_registered ops (name : string) fn :
  lookup_operation ops name = Some fn -> entries_for name ops = 1%nat.
Proof.
  unfold lookup_operation, entries_for. intros Hfn.
  rewrite <- (insert_id ops name fn Hfn), <- insert_delete_eq.
  rewrite map_to_list_insert by apply lookup_delete_eq.
  rewrite filter_cons_True by done. simpl. f_equal.
  apply length_zero_iff_nil, elem_of_nil_inv.
  intros [k v] Hin. apply list_elem_of_filter in Hin as [Hk Hin]. simpl in Hk.
  subst k. apply elem_of_map_to_list in Hin.
  by rewrite lookup_delete_eq in Hin.
Qed.

Lemma lookup_operation_registered ops (name : string) fn :
  lookup_operation (operation name fn ops) name = Some fn.
Proof. apply lookup_insert_eq. Qed.

Lemma lookup_operation_other ops (name name' : string) fn :
  name <> name' ->
  lookup_operation (operation name fn ops) name' = lookup_operation ops name'.
Proof. intros Hne. by apply lookup_insert_ne. Qed.

(** C5: after two handlers are registered in sequence under one name, the
    registry holds exactly one entry for that name, the lookup of the name
    gives the handler registered last, and the second registration has added
    no entry to the registry. *)
Theorem operation_last_registration_wins ops (name : string) fn1 fn2 :
  lookup_operation (operation name fn2 (operation name fn1 ops)) name = Some fn2
  /\ entries_for name (operation name fn2 (operation name fn1 ops)) = 1%nat
  /\ size (operation name fn2 (operation name fn1 ops))
     = size (operation name fn1 ops)
  /\ operation name fn2 (operation name fn1 ops) = operation name fn2 ops.
Proof.
  assert (Hlast : operation name fn2 (operation name fn1 ops)
                  = operation name fn2 ops)
    by apply insert_insert_eq.
  split; [apply lookup_operation_registered|].
  split; [eapply entries_for_registered, lookup_operation_registered|].
  split; [|exact Hlast].
  unfold operation. rewrite insert_insert_eq.
  destruct (ops !! name) as [fn|] eqn:Hops.
  - rewrite !map_size_insert_Some; eauto.
  - by rewrite !map_size_insert_None.
Qed.

End RegistryFacts.

(** ** Publishing *)

Section PublishFacts.

Context {World : Type} `{!Platform World}.

Implicit Types (ops : gmap string (handler World)) (a : agent) (w : World).

Lemma in_world_uuid4 a w :
  in_world uuid4 (a, w) = (Ok (stamp_id w), (a, snd (uuid4 w)), []).
Proof. unfold in_world, stamp_id. simpl. by destruct (uuid4 w). Qed.

Lemma in_world_time_ms a w :
  in_world time_ms (a, w) = (Ok (fst (time_ms w)), (a, snd (time_ms w)), []).
Proof. unfold in_world. simpl. by destruct (time_ms w). Qed.

Lemma publish_error_run (request_id : json) (message : string) a w :
  _publish_error request_id message (a, w)
  = (Ok tt, (a, stamp_world w),
     [EvPublish TOPICS_RESPONSE
        (error_packet (stamp_id w) (stamp_time w) request_id message) 1 false]).
Proof.
  unfold _publish_error, bind. rewrite in_world_uuid4, in_world_time_ms.
  reflexivity.
Qed.

Lemma publish_response_run (request_id data : json) a w :
  _publish_response request_id (Json data) (a, w)
  = (Ok tt, (a, stamp_world w),
     [EvPublish TOPICS_RESPONSE
        (response_packet (stamp_id w) (stamp_time w) request_id data) 1 false]).
Proof.
  unfold _publish_response, bind. rewrite in_world_uuid4, in_world_time_ms.
  reflexivity.
Qed.

(** A result [json.dumps] rejects: the packet has drawn its id and timestamp,
    nothing is published, and the error of [json.dumps] is raised. *)
Lemma publish_response_rejected (request_id : json) (dumps_error : string) a w :
  _publish_response request_id (NotJson dumps_error) (a, w)
  = (Raise (Exn OtherException dumps_error), (a, stamp_world w), []).
Proof.
  unfold _publish_response, bind. rewrite in_world_uuid4, in_world_time_ms.
  reflexivity.
Qed.

Lemma publish_status_run ops (status : string) a w :
  _publish_status ops status (a, w)
  = (Ok tt, (a, stamp_world w),
     [EvPublish TOPICS_STATUS
        (status_packet (stamp_id w) (stamp_time w) status (list_operations ops))
        1 true]).
Proof.
  unfold _publish_status, bind. rewrite in_world_uuid4, in_world_time_ms.
  reflexivity.
Qed.

Lemma stop_run ops a w :
  stop ops (a, w)
  = (Ok tt, ({| running := false; loop_closed := true |}, stamp_world w),
     [EvPublish TOPICS_STATUS
        (status_packet (stamp_id w) (stamp_time w) "offline"
           (list_operations ops)) 1 true;
      EvSleep 500; EvLoopStop; EvDisconnect; EvLoopClose]).
Proof.
  unfold stop, bind, set_running. simpl. rewrite publish_status_run.
  reflexivity.
Qed.

Lemma on_connect_run ops (reason_code : Z) a w :
  _on_connect ops reason_code (a, w)
  = if Z.eqb reason_code 0
    then (Ok tt, (a, stamp_world w),
          [EvSubscribe TOPICS_REQUEST 1;
           EvPublish TOPICS_STATUS
             (status_packet (stamp_id w) (stamp_time w) "online"
                (list_operations ops)) 1 true])
    else (Ok tt, (a, w), []).
Proof.
  unfold _on_connect. destruct (Z.eqb reason_code 0); [|reflexivity].
  unfold bind, emit. rewrite publish_status_run. reflexivity.
Qed.

End PublishFacts.

(** ** The dispatcher *)

Section DispatchFacts.

Context {World : Type} `{!Platform World}.

Implicit Types (ops : gmap string (handler World)) (a : agent) (w : World).
Implicit Types (msg : mqtt_message) (kvs pl : list (string * json)).
Implicit Types (s : agent * World).

(** *** Laws of the monad *)

Lemma bind_lift_ok {A B} (x : A) (k : A -> M B) s :
  bind (lift (Ok x)) k s = k x s.
Proof. unfold bind, lift. by destruct (k x s) as [[r s2] t2]. Qed.

Lemma bind_lift_raise {A B} (e : exn) (k : A -> M B) s :
  bind (lift (Raise e)) k s = (Raise e, s, []).
Proof. reflexivity. Qed.

Lemma bind_run {A B} (c : M A) (k : A -> M B) s :
  bind c k s
  = match c s with
    | (Ok x, s1, t1) =>
        (outcome (k x s1), (agent_after (k x s1), world_after (k x s1)),
         (t1 ++ trace (k x s1))%list)
    | (Raise e, s1, t1) => (Raise e, s1, t1)
    end.
Proof.
  unfold bind. destruct (c s) as [[[x|e] s1] t1]; [|reflexivity].
  by destruct (k x s1) as [[r [a2 w2]] t2].
Qed.

Lemma try_except_ok {A} (c : M A) (h : exn -> M A) s (x : A) s1 t1 :
  c s = (Ok x, s1, t1) -> try_except c h s = (Ok x, s1, t1).
Proof. unfold try_except. by intros ->. Qed.

Lemma try_except_raise {A} (c : M A) (h : exn -> M A) s (e : exn) s1 t1 :
  c s = (Raise e, s1, t1) ->
  try_except c h s
  = (outcome (h e s1), (agent_after (h e s1), world_after (h e s1)),
     (t1 ++ trace (h e s1))%list).
Proof.
  unfold try_except. intros ->. by destruct (h e s1) as [[r [a2 w2]] t2].
Qed.

Lemma py_get_dict kvs (key : string) (default : json) :
  py_get (JDict kvs) key default = Ok (dict_get_or key kvs default).
Proof. reflexivity. Qed.

Lemma dict_get_or_Some kvs (key : string) (default v : json) :
  dict_get key kvs = Some v -> dict_get_or key kvs default = v.
Proof. unfold dict_get_or. by intros ->. Qed.

Lemma dict_get_or_None kvs (key : string) (default : json) :
  dict_get key kvs = None -> dict_get_or key kvs default = default.
Proof. unfold dict_get_or. by intros ->. Qed.

(** *** The publishes of a trace *)

Lemma published_app (t1 t2 : list event) :
  published (t1 ++ t2) = (published t1 ++ published t2)%list.
Proof. apply omap_app. Qed.

Lemma published_os_events (evs : list os_event) : published (map EvOS evs) = [].
Proof. induction evs as [|ev evs IH]; [done|exact IH]. Qed.

Lemma published_call (name : string) (params : json) (evs : list os_event)
    (t : list event) :
  published (EvCall name params :: map EvOS evs ++ t) = published t.
Proof.
  change (published (map EvOS evs ++ t) = published t).
  by rewrite published_app, published_os_events.
Qed.

(** *** [_on_message], clause by clause *)

Lemma on_message_other_topic ops msg s :
  topic msg <> TOPICS_REQUEST -> _on_message ops msg s = (Ok tt, s, []).
Proof.
  intros Hne. unfold _on_message.
  destruct (String.eqb_spec (topic msg) TOPICS_REQUEST); [done|reflexivity].
Qed.

Lemma on_message_request_topic ops msg :
  topic msg = TOPICS_REQUEST ->
  _on_message ops msg
  = match decode_loads (payload msg) with
    | Raise e => _on_message_except None e
    | Ok data =>
        try_except (_on_message_try ops data) (_on_message_except (Some data))
    end.
Proof. intros Ht. unfold _on_message. rewrite Ht. reflexivity. Qed.

(** An exception before [data] is bound: nothing is published. *)
Lemma on_message_except_unbound (e : exn) s :
  _on_message_except None e s
  = (match exn_cls e with
     | JSONDecodeError | OtherException => Ok tt
     | KeyboardInterrupt | SystemExit => Raise e
     end, s, []).
Proof. unfold _on_message_except. destruct (exn_cls e); reflexivity. Qed.

(** An exception once [data] is bound to a dict. *)
Lemma on_message_except_dict kvs (e : exn) a w :
  _on_message_except (Some (JDict kvs)) e (a, w)
  = match exn_cls e with
    | JSONDecodeError => (Ok tt, (a, w), [])
    | OtherException =>
        if truthy (dict_get_or "id" kvs JNull)
        then (Ok tt, (a, stamp_world w),
              [EvPublish TOPICS_RESPONSE
                 (error_packet (stamp_id w) (stamp_time w)
                    (dict_get_or "id" kvs JNull) (exn_str e)) 1 false])
        else (Ok tt, (a, w), [])
    | KeyboardInterrupt | SystemExit => (Raise e, (a, w), [])
    end.
Proof.
  unfold _on_message_except. destruct (exn_cls e); try reflexivity.
  rewrite py_get_dict, bind_lift_ok.
  destruct (truthy _); [|reflexivity].
  apply publish_error_run.
Qed.

(** The [try] on a dict whose payload is a dict, up to the call of
    [execute]. *)
Lemma on_message_try_dict ops kvs pl a w :
  dict_get_or "payload" kvs (JDict []) = JDict pl ->
  _on_message_try ops (JDict kvs) (a, w)
  = if negb (truthy (dict_get_or "action" pl JNull))
    then _publish_error (dict_get_or "id" kvs JNull)
           "Missing 'action' in payload" (a, w)
    else
      match slice8 (dict_get_or "id" kvs JNull) with
      | Raise e => (Raise e, (a, w), [])
      | Ok _ =>
          bind (run_until_complete
                  (execute ops (dict_get_or "action" pl JNull)
                     (dict_get_or "params" pl (JDict []))))
               (_publish_response (dict_get_or "id" kvs JNull)) (a, w)
      end.
Proof.
  intros Hpl. unfold _on_message_try.
  rewrite py_get_dict, bind_lift_ok, py_get_dict, bind_lift_ok, Hpl.
  rewrite py_get_dict, bind_lift_ok, py_get_dict, bind_lift_ok.
  destruct (negb _); [reflexivity|].
  destruct (slice8 _) as [[]|e].
  - by rewrite bind_lift_ok.
  - by rewrite bind_lift_raise.
Qed.

(** [execute] on the name of a registered handler. *)
Lemma execute_registered ops (name : string) (fn : handler World) (params : json)
    a w :
  lookup_operation ops name = Some fn ->
  execute ops (JStr name) params (a, w)
  = call name fn (if truthy params then params else JDict []) (a, w).
Proof.
  intros Hfn. unfold execute, operations_get. rewrite Hfn, bind_lift_ok.
  by destruct (is_coroutine fn).
Qed.

(** [execute] on a string that names no handler. *)
Lemma execute_unknown ops (name : string) (params : json) s :
  lookup_operation ops name = None ->
  execute ops (JStr name) params s
  = (Raise (Exn OtherException ("Unknown operation: " +:+ name)), s, []).
Proof.
  intros Hfn. unfold execute, operations_get. rewrite Hfn, bind_lift_ok.
  reflexivity.
Qed.

(** A request whose [action] is missing or falsy. *)
Lemma on_message_falsy_action ops msg a w kvs pl :
  topic msg = TOPICS_REQUEST ->
  decode_loads (payload msg) = Ok (JDict kvs) ->
  dict_get_or "payload" kvs (JDict []) = JDict pl ->
  truthy (dict_get_or "action" pl JNull) = false ->
  _on_message ops msg (a, w)
  = (Ok tt, (a, stamp_world w),
     [EvPublish TOPICS_RESPONSE
        (error_packet (stamp_id w) (stamp_time w) (dict_get_or "id" kvs JNull)
           "Missing 'action' in payload") 1 false]).
Proof.
  intros Ht Hdata Hpl Hact.
  rewrite on_message_request_topic, Hdata by done.
  apply try_except_ok.
  rewrite (on_message_try_dict ops kvs pl) by done.
  rewrite Hact. apply publish_error_run.
Qed.

(** C4: a request that decodes to a dict whose payload (given, or [{}] by
    default) has no [action] key is no decode failure: exactly one envelope is
    published, to the response topic; it is an Error Envelope ([type] is
    "error"), its [payload.requestId] is the request's [id] ([None] when the
    request has none), its [payload.message] says that [action] is missing,
    and its [id] and [timestamp] are fresh; no handler is called, and the
    agent is unchanged. *)
Theorem on_message_missing_action ops msg a w kvs pl :
  topic msg = TOPICS_REQUEST ->
  decode_loads (payload msg) = Ok (JDict kvs) ->
  dict_get_or "payload" kvs (JDict []) = JDict pl ->
  dict_get "action" pl = None ->
  exists packet,
    _on_message ops msg (a, w)
    = (Ok tt, (a, stamp_world w), [EvPublish TOPICS_RESPONSE packet 1 false])
    /\ published (trace (_on_message ops msg (a, w)))
       = [(TOPICS_RESPONSE, packet, 1, false)]
    /\ packet_field "type" packet = Some (JStr "error")
    /\ payload_field "requestId" packet = Some (dict_get_or "id" kvs JNull)
    /\ payload_field "message" packet
       = Some (JStr "Missing 'action' in payload")
    /\ packet_field "id" packet = Some (JStr (stamp_id w))
    /\ packet_field "timestamp" packet = Some (JInt (stamp_time w))
    /\ (forall (name : string) (p : json),
           EvCall name p ∉ trace (_on_message ops msg (a, w))).
Proof.
  intros Ht Hdata Hpl Hact.
  assert (Heq : _on_message ops msg (a, w)
                = (Ok tt, (a, stamp_world w),
                   [EvPublish TOPICS_RESPONSE
                      (error_packet (stamp_id w) (stamp_time w)
                         (dict_get_or "id" kvs JNull)
                         "Missing 'action' in payload") 1 false])).
  { apply (on_message_falsy_action ops msg a w kvs pl); try done.
    by rewrite (dict_get_or_None pl) by done. }
  eexists. split; [exact Heq|]. rewrite Heq.
  repeat (split; [reflexivity|]).
  intros name p Hin. by apply list_elem_of_singleton in Hin.
Qed.

(** C3: a payload that [json.loads] rejects with [JSONDecodeError] leaves no
    event at all, so no envelope of any kind is published; [_on_message]
    returns normally and the agent and the machine are unchanged. *)
Theorem on_message_invalid_json ops msg s (e : exn) :
  topic msg = TOPICS_REQUEST ->
  decode_loads (payload msg) = Raise e ->
  exn_cls e = JSONDecodeError ->
  _on_message ops msg s = (Ok tt, s, []).
Proof.
  intros Ht Hdata Hcls.
  rewrite on_message_request_topic by done.
  rewrite Hdata, on_message_except_unbound, Hcls. reflexivity.
Qed.

(** Whatever [payload.decode()] or [json.loads] raise, on whatever topic,
    nothing is published. *)
Lemma on_message_undecodable ops msg s (e : exn) :
  decode_loads (payload msg) = Raise e ->
  trace (_on_message ops msg s) = []
  /\ agent_after (_on_message ops msg s) = fst s
  /\ world_after (_on_message ops msg s) = snd s.
Proof.
  intros Hdata. unfold _on_message.
  destruct (negb _); [by destruct s|].
  rewrite Hdata, on_message_except_unbound. by destruct s.
Qed.

(** C10: a request with a truthy [action] whose top-level [id] is absent or
    null publishes nothing and calls no handler: the log line raises on
    [request_id[:8]], and the [except] clause finds a falsy [request_id]. *)
Theorem on_message_no_id ops msg a w kvs pl (action : json) :
  topic msg = TOPICS_REQUEST ->
  decode_loads (payload msg) = Ok (JDict kvs) ->
  dict_get "id" kvs = None \/ dict_get "id" kvs = Some JNull ->
  dict_get "payload" kvs = Some (JDict pl) ->
  dict_get "action" pl = Some action ->
  truthy action = true ->
  _on_message ops msg (a, w) = (Ok tt, (a, w), []).
Proof.
  intros Ht Hdata Hid Hpl Hact Htruthy.
  assert (Hrid : dict_get_or "id" kvs JNull = JNull).
  { destruct Hid as [Hid|Hid]; unfold dict_get_or; by rewrite Hid. }
  rewrite on_message_request_topic, Hdata by done.
  erewrite try_except_raise; cycle 1.
  { rewrite (on_message_try_dict ops kvs pl)
      by (by apply dict_get_or_Some).
    rewrite (dict_get_or_Some pl "action" JNull action), Htruthy, Hrid by done.
    reflexivity. }
  rewrite on_message_except_dict, Hrid. reflexivity.
Qed.

(** C1: a request that decodes to a dict with a string [id], whose [action]
    names a registered handler that returns the serialisable result [R]: the
    handler is called once, and exactly one envelope is published, to the
    response topic, with [type] "response", [requestId] the request's [id] and
    [data] the result [R].  The agent is one that serves: no function is
    registered under the empty name (as in the registry of [load_all]), and
    the event loop is open (as it is until [stop]). *)
Theorem on_message_registered_success ops msg a w kvs pl
    (rid name : string) (fn : handler World) (R : json) (w1 : World)
    (evs : list os_event) :
  topic msg = TOPICS_REQUEST ->
  decode_loads (payload msg) = Ok (JDict kvs) ->
  dict_get "id" kvs = Some (JStr rid) ->
  dict_get "payload" kvs = Some (JDict pl) ->
  dict_get "action" pl = Some (JStr name) ->
  lookup_operation ops name = Some fn ->
  run fn (params_of pl) w = (Returned (Json R), w1, evs) ->
  lookup_operation ops "" = None ->
  loop_closed a = false ->
  exists packet,
    _on_message ops msg (a, w)
    = (Ok tt, (a, stamp_world w1),
       EvCall name (params_of pl) :: map EvOS evs
         ++ [EvPublish TOPICS_RESPONSE packet 1 false])
    /\ published (trace (_on_message ops msg (a, w)))
       = [(TOPICS_RESPONSE, packet, 1, false)]
    /\ packet_field "type" packet = Some (JStr "response")
    /\ payload_field "requestId" packet = Some (JStr rid)
    /\ payload_field "data" packet = Some R.
Proof.
  intros Ht Hdata Hid Hpl Hact Hfn Hrun Hempty Hloop.
  assert (Hname : name <> "") by (intros ->; congruence).
  exists (response_packet (stamp_id w1) (stamp_time w1) (JStr rid) R).
  assert (Heq : _on_message ops msg (a, w)
    = (Ok tt, (a, stamp_world w1),
       EvCall name (params_of pl) :: map EvOS evs
         ++ [EvPublish TOPICS_RESPONSE
               (response_packet (stamp_id w1) (stamp_time w1) (JStr rid) R)
               1 false])).
  { rewrite on_message_request_topic, Hdata by done.
    apply try_except_ok.
    rewrite (on_message_try_dict ops kvs pl) by (by apply dict_get_or_Some).
    rewrite (dict_get_or_Some pl "action" JNull (JStr name)) by done.
    rewrite (dict_get_or_Some kvs "id" JNull (JStr rid)) by done.
    simpl. destruct (String.eqb_spec name ""); [done|]. simpl.
    rewrite bind_run. unfold run_until_complete. simpl. rewrite Hloop.
    rewrite (execute_registered ops name fn) by done.
    unfold call. simpl. fold (params_of pl). rewrite Hrun.
    rewrite publish_response_run. reflexivity. }
  split; [exact Heq|]. rewrite Heq. split; [|done].
  unfold trace. cbn [snd]. by rewrite published_call.
Qed.

(** C2: a request that decodes to a dict with a string [id], whose [action]
    is a non-empty string that names no registered handler, on an agent whose
    event loop is open.  No handler is called.  When the [id] is not empty,
    exactly one envelope is published, to the response topic: an Error
    Envelope ([type] is "error", so no Response Envelope) whose
    [payload.requestId] is the request's [id] and whose [payload.message] is
    "Unknown operation: " followed by the action name.  When the [id] is the
    empty string, the [except] clause takes it for no id and nothing is
    published, where the claim asks for an Error Envelope. *)
Theorem on_message_unknown_operation ops msg a w kvs pl (rid name : string) :
  topic msg = TOPICS_REQUEST ->
  decode_loads (payload msg) = Ok (JDict kvs) ->
  dict_get "id" kvs = Some (JStr rid) ->
  dict_get "payload" kvs = Some (JDict pl) ->
  dict_get "action" pl = Some (JStr name) ->
  name <> "" ->
  lookup_operation ops name = None ->
  loop_closed a = false ->
  (forall (n : string) (p : json),
      EvCall n p ∉ trace (_on_message ops msg (a, w)))
  /\ (rid <> "" ->
      exists packet,
        _on_message ops msg (a, w)
        = (Ok tt, (a, stamp_world w),
           [EvPublish TOPICS_RESPONSE packet 1 false])
        /\ published (trace (_on_message ops msg (a, w)))
           = [(TOPICS_RESPONSE, packet, 1, false)]
        /\ packet_field "type" packet = Some (JStr "error")
        /\ payload_field "requestId" packet = Some (JStr rid)
        /\ payload_field "message" packet
           = Some (JStr ("Unknown operation: " +:+ name))
        /\ packet_field "id" packet = Some (JStr (stamp_id w))
        /\ packet_field "timestamp" packet = Some (JInt (stamp_time w)))
  /\ (rid = "" -> _on_message ops msg (a, w) = (Ok tt, (a, w), [])).
Proof.
  intros Ht Hdata Hid Hpl Hact Hname Hfn Hloop.
  assert (Heq : _on_message ops msg (a, w)
                = if String.eqb rid "" then (Ok tt, (a, w), [])
                  else (Ok tt, (a, stamp_world w),
                        [EvPublish TOPICS_RESPONSE
                           (error_packet (stamp_id w) (stamp_time w) (JStr rid)
                              ("Unknown operation: " +:+ name)) 1 false])).
  { rewrite on_message_request_topic, Hdata by done.
    erewrite try_except_raise; cycle 1.
    { rewrite (on_message_try_dict ops kvs pl) by (by apply dict_get_or_Some).
      rewrite (dict_get_or_Some pl "action" JNull (JStr name)) by done.
      rewrite (dict_get_or_Some kvs "id" JNull (JStr rid)) by done.
      simpl. destruct (String.eqb_spec name ""); [done|]. simpl.
      rewrite bind_run. unfold run_until_complete. simpl. rewrite Hloop.
      rewrite execute_unknown by done. reflexivity. }
    rewrite on_message_except_dict.
    rewrite (dict_get_or_Some kvs "id" JNull (JStr rid)) by done.
    simpl. by destruct (String.eqb rid ""). }
  rewrite Heq. destruct (String.eqb_spec rid "") as [->|Hrid].
  - split; [by intros n p ?%elem_of_nil|]. by split.
  - split; [intros n p Hin; by apply list_elem_of_singleton in Hin|].
    split; [|done]. intros _. eexists. split; [reflexivity|].
    by repeat (split; [reflexivity|]).
Qed.

(** *** The shape of what one message leaves in the trace *)

Lemma is_reply_error (request_id : json) (id : string) (timestamp : Z)
    (message : string) :
  is_reply request_id
    (EvPublish TOPICS_RESPONSE (error_packet id timestamp request_id message)
       1 false).
Proof. exists id, timestamp. right. by exists message. Qed.

Lemma is_reply_response (request_id : json) (id : string) (timestamp : Z)
    (data : json) :
  is_reply request_id
    (EvPublish TOPICS_RESPONSE (response_packet id timestamp request_id data)
       1 false).
Proof. exists id, timestamp. left. by exists data. Qed.

Lemma call_shape (name : string) (fn : handler World) (params : json) s :
  agent_after (call name fn params s) = fst s
  /\ handler_events (trace (call name fn params s)).
Proof.
  unfold call. destruct (run fn params (snd s)) as [[r w1] evs].
  split; [done|]. right. by exists name, params, evs.
Qed.

Lemma execute_shape ops (action params : json) s :
  agent_after (execute ops action params s) = fst s
  /\ handler_events (trace (execute ops action params s)).
Proof.
  unfold execute.
  destruct (operations_get ops action) as [[[name fn]|]|e].
  - rewrite bind_lift_ok. destruct (is_coroutine fn); apply call_shape.
  - rewrite bind_lift_ok. split; [done|by left].
  - rewrite bind_lift_raise. split; [done|by left].
Qed.

(** What [_publish_response] leaves, after a run of [execute]. *)
Lemma publish_response_shape (request_id : json) (o : pyobj) s :
  agent_after (_publish_response request_id o s) = fst s
  /\ ((outcome (_publish_response request_id o s) = Ok tt
       /\ exists ev, trace (_publish_response request_id o s) = [ev]
                     /\ is_reply request_id ev)
      \/ ((exists e, outcome (_publish_response request_id o s) = Raise e)
          /\ trace (_publish_response request_id o s) = [])).
Proof.
  destruct s as [a w]. destruct o as [d|m].
  - rewrite publish_response_run. split; [done|]. left. split; [done|].
    eexists. split; [done|]. apply is_reply_response.
  - rewrite publish_response_rejected. split; [done|]. right. eauto.
Qed.

(** The [try]: it returns after a reply, or raises before any. *)
Lemma on_message_try_shape ops (data : json) s :
  agent_after (_on_message_try ops data s) = fst s
  /\ exists calls,
       handler_events calls
       /\ ((outcome (_on_message_try ops data s) = Ok tt
            /\ exists ev, trace (_on_message_try ops data s) = (calls ++ [ev])%list
                          /\ is_reply (id_of data) ev)
           \/ ((exists e, outcome (_on_message_try ops data s) = Raise e)
               /\ trace (_on_message_try ops data s) = calls)).
Proof.
  destruct s as [a w].
  assert (Hraise : forall (o : result unit * (agent * World) * list event) e,
             o = (Raise e, (a, w), []) ->
             agent_after o = a
             /\ exists calls, handler_events calls
                  /\ ((outcome o = Ok tt
                       /\ exists ev, trace o = (calls ++ [ev])%list
                                     /\ is_reply (id_of data) ev)
                      \/ ((exists e, outcome o = Raise e) /\ trace o = calls))).
  { intros o e ->. split; [done|]. exists []. split; [by left|]. right. eauto. }
  destruct data as [| | | | | |kvs]; try (eapply Hraise; reflexivity).
  destruct (dict_get_or "payload" kvs (JDict [])) as [| | | | | |pl] eqn:Hpl;
    try (eapply Hraise; unfold _on_message_try;
         rewrite py_get_dict, bind_lift_ok, py_get_dict, bind_lift_ok, Hpl;
         reflexivity).
  rewrite (on_message_try_dict ops kvs pl) by done. simpl id_of.
  destruct (negb _).
  { rewrite publish_error_run. split; [done|]. exists []. split; [by left|].
    left. split; [done|]. eexists. split; [done|]. apply is_reply_error. }
  destruct (slice8 _) as [[]|e]; [|by eapply Hraise].
  rewrite bind_run. unfold run_until_complete. simpl fst.
  destruct (loop_closed a); [by eapply Hraise|].
  destruct (execute_shape ops (dict_get_or "action" pl JNull)
              (dict_get_or "params" pl (JDict [])) (a, w)) as [Hag Hcalls].
  destruct (execute _ _ _ _) as [[[o|e] [a1 w1]] t1];
    unfold agent_after, trace in Hag, Hcalls; simpl in Hag, Hcalls; subst a1.
  - destruct (publish_response_shape (dict_get_or "id" kvs JNull) o (a, w1))
      as [Hag [[Hok [ev [Hev Hrep]]]|[Hex Hnil]]].
    + split; [exact Hag|]. exists t1. split; [done|]. left.
      split; [exact Hok|]. exists ev. split; [|done].
      unfold trace at 1. simpl. by rewrite Hev.
    + split; [exact Hag|]. exists t1. split; [done|]. right.
      split; [exact Hex|]. unfold trace at 1. simpl.
      by rewrite Hnil, app_nil_r.
  - split; [done|]. exists t1. split; [done|]. right. eauto.
Qed.

(** The [except] clauses: at most one reply. *)
Lemma on_message_except_shape (data : json) (e : exn) s :
  agent_after (_on_message_except (Some data) e s) = fst s
  /\ (trace (_on_message_except (Some data) e s) = []
      \/ exists ev, trace (_on_message_except (Some data) e s) = [ev]
                    /\ is_reply (id_of data) ev).
Proof.
  destruct s as [a w].
  destruct data as [| | | | | |kvs];
    try (unfold _on_message_except; destruct (exn_cls e);
         (split; [reflexivity|left; reflexivity])).
  rewrite on_message_except_dict. simpl id_of.
  destruct (exn_cls e); try (split; [done|by left]).
  destruct (truthy _); [|by split; [|left]].
  split; [done|]. right. eexists. split; [done|]. apply is_reply_error.
Qed.

(** Whatever the message, [_on_message] leaves the agent as it was, and in
    the trace at most one handler call followed by at most one reply, which
    answers the [id] of that message. *)
Lemma on_message_block ops msg s :
  agent_after (_on_message ops msg s) = fst s
  /\ message_block (request_id_of msg) (trace (_on_message ops msg s)).
Proof.
  assert (Hnone : message_block (request_id_of msg) []).
  { exists [], []. split; [done|]. split; by left. }
  unfold _on_message. destruct (negb _); [by split|].
  destruct (decode_loads (payload msg)) as [data|e] eqn:Hdata.
  2:{ rewrite on_message_except_unbound. by split. }
  unfold request_id_of. rewrite Hdata.
  destruct (on_message_try_shape ops data s)
    as [Hag [calls [Hcalls [[Hok [ev [Hev Hrep]]]|[[e He] Hnil]]]]].
  - destruct (_on_message_try ops data s) as [[r s1] t1] eqn:Htry.
    unfold outcome, trace, agent_after in *. simpl in *. subst r t1.
    rewrite (try_except_ok _ _ _ _ _ _ Htry). split; [done|].
    exists calls, [ev]. split; [done|]. split; [done|]. right. eauto.
  - destruct (_on_message_try ops data s) as [[r s1] t1] eqn:Htry.
    unfold outcome, trace, agent_after in *. simpl in *. subst r t1.
    rewrite (try_except_raise _ _ _ _ _ _ Htry).
    destruct (on_message_except_shape data e s1) as [Hag' Hreply].
    split; [unfold agent_after in *; simpl; congruence|].
    exists calls, (trace (_on_message_except (Some data) e s1)).
    split; [done|]. split; [done|].
    destruct Hreply as [->|[ev [-> Hrep]]]; [by left|right; eauto].
Qed.

End DispatchFacts.

(** ** Serving a sequence of requests *)

Section ServingFacts.

Context {World : Type} `{!Platform World}.

Implicit Types (ops : gmap string (handler World)) (s : agent * World).
Implicit Types (msg : mqtt_message) (msgs : list mqtt_message).
Implicit Types (t : list event) (blocks : list (list event)).

Lemma reply_ids_app t1 t2 :
  reply_ids (t1 ++ t2) = (reply_ids t1 ++ reply_ids t2)%list.
Proof. apply omap_app. Qed.

Lemma reply_ids_handler_events t : handler_events t -> reply_ids t = [].
Proof.
  intros [->|(name & params & evs & ->)]; [done|].
  change (reply_ids (map EvOS evs) = []).
  induction evs as [|ev evs IH]; [done|exact IH].
Qed.

Lemma reply_ids_reply (request_id : json) (ev : event) :
  is_reply request_id ev -> reply_ids [ev] = [request_id].
Proof. by intros (id & timestamp & [[data ->]|[message ->]]). Qed.

(** A block holds no reply, or the one reply to its request. *)
Lemma reply_ids_block (request_id : json) t :
  message_block request_id t ->
  reply_ids t = [] \/ reply_ids t = [request_id].
Proof.
  intros (calls & replies & -> & Hcalls & Hreplies).
  rewrite reply_ids_app, (reply_ids_handler_events calls) by done.
  destruct Hreplies as [->|(ev & -> & Hrep)]; [by left|right].
  by apply reply_ids_reply.
Qed.

Lemma reply_ids_blocks msgs blocks :
  Forall2 (fun msg t => message_block (request_id_of msg) t) msgs blocks ->
  reply_ids (concat blocks) `sublist_of` (request_id_of <$> msgs).
Proof.
  induction 1 as [|msg t msgs blocks Hblock _ IH]; [done|].
  simpl. rewrite reply_ids_app.
  destruct (reply_ids_block _ _ Hblock) as [->| ->]; simpl.
  - by apply sublist_cons.
  - by apply sublist_skip.
Qed.

Lemma deliver_cons ops msg msgs s :
  deliver ops (msg :: msgs) s
  = match _on_message ops msg s with
    | (Ok _, s1, t1) =>
        (outcome (deliver ops msgs s1),
         (agent_after (deliver ops msgs s1), world_after (deliver ops msgs s1)),
         (t1 ++ trace (deliver ops msgs s1))%list)
    | (Raise e, s1, t1) => (Raise e, s1, t1)
    end.
Proof. simpl. apply bind_run. Qed.

(** The trace of [deliver] is cut into one block per message handled, in the
    order of the messages. *)
Lemma deliver_blocks ops msgs s :
  exists blocks,
    trace (deliver ops msgs s) = concat blocks
    /\ Forall2 (fun msg t => message_block (request_id_of msg) t)
               (take (length blocks) msgs) blocks
    /\ (outcome (deliver ops msgs s) = Ok tt -> length blocks = length msgs).
Proof.
  revert s. induction msgs as [|msg msgs IH]; intros s.
  { exists []. by repeat split. }
  rewrite deliver_cons.
  pose proof (on_message_block ops msg s) as [_ Hblock].
  destruct (_on_message ops msg s) as [[[[]|e] s1] t1].
  - destruct (IH s1) as (blocks & Htrace & Hblocks & Hlen).
    exists (t1 :: blocks). unfold trace, outcome in *. simpl in *.
    split; [by rewrite Htrace|]. split; [by constructor|].
    intros Hok. by rewrite Hlen.
  - exists [t1]. unfold trace, outcome in *. simpl in *.
    split; [by rewrite app_nil_r|]. split; [|done].
    constructor; [done|]. rewrite take_0. constructor.
Qed.

(** [deliver] leaves the agent as it was: no request changes [self.running]
    or closes the event loop. *)
Lemma deliver_agent ops msgs s : agent_after (deliver ops msgs s) = fst s.
Proof.
  revert s. induction msgs as [|msg msgs IH]; intros s; [done|].
  rewrite deliver_cons.
  pose proof (on_message_block ops msg s) as [Hag _].
  destruct (_on_message ops msg s) as [[[[]|e] s1] t1];
    unfold agent_after in *; simpl in *; [|done].
  rewrite IH. done.
Qed.

(** *** Requests that are answered *)

Lemma execute_raises_plainly ops (action params : json) s (e : exn) :
  plain_failures ops ->
  outcome (execute ops action params s) = Raise e ->
  exn_cls e = OtherException.
Proof.
  intros Hplain. unfold execute, operations_get.
  destruct action as [| | | |name| |];
    try (rewrite ?bind_lift_ok; by intros [= <-]).
  destruct (lookup_operation ops name) as [fn|] eqn:Hfn;
    rewrite bind_lift_ok; [|by intros [= <-]].
  assert (Hcall : forall p,
             outcome (call name fn p s) = Raise e -> exn_cls e = OtherException).
  { intros p. unfold call.
    destruct (run fn p (snd s)) as [[[o|e'] w1] evs] eqn:Hrun; [done|].
    intros [= <-]. by eapply Hplain. }
  destruct (is_coroutine fn); apply Hcall.
Qed.

Lemma on_message_try_raises_plainly ops kvs s (e : exn) :
  plain_failures ops ->
  outcome (_on_message_try ops (JDict kvs) s) = Raise e ->
  exn_cls e = OtherException.
Proof.
  intros Hplain. destruct s as [a w].
  destruct (dict_get_or "payload" kvs (JDict [])) as [| | | | | |pl] eqn:Hpl;
    try (unfold _on_message_try;
         rewrite py_get_dict, bind_lift_ok, py_get_dict, bind_lift_ok, Hpl;
         by intros [= <-]).
  rewrite (on_message_try_dict ops kvs pl) by done.
  destruct (negb _); [by rewrite publish_error_run|].
  destruct (slice8 _) as [[]|e'] eqn:Hslice.
  2:{ intros [= <-]. revert Hslice. unfold slice8, interp_raise.
      destruct (dict_get_or "id" kvs JNull); by intros [= <-]. }
  rewrite bind_run. unfold run_until_complete. simpl fst.
  destruct (loop_closed a); [by intros [= <-]|].
  pose proof (execute_raises_plainly ops (dict_get_or "action" pl JNull)
                (dict_get_or "params" pl (JDict [])) (a, w)) as Hexec.
  destruct (execute _ _ _ _) as [[[o|e'] [a1 w1]] t1].
  - destruct o as [d|m].
    + by rewrite publish_response_run.
    + rewrite publish_response_rejected. by intros [= <-].
  - intros [= <-]. by apply Hexec.
Qed.

(** An answerable request gets exactly one reply, whatever its handler
    does. *)
Lemma on_message_answers ops msg s :
  plain_failures ops ->
  answerable msg ->
  outcome (_on_message ops msg s) = Ok tt
  /\ reply_ids (trace (_on_message ops msg s)) = [request_id_of msg].
Proof.
  intros Hplain (Ht & kvs & rid & Hdata & Hid & Hrid).
  assert (Hreq : request_id_of msg = JStr rid).
  { unfold request_id_of. rewrite Hdata. by apply dict_get_or_Some. }
  rewrite on_message_request_topic, Hdata, Hreq by done.
  destruct (on_message_try_shape ops (JDict kvs) s)
    as [_ [calls [Hcalls [[Hok [ev [Hev Hrep]]]|[[e He] Hnil]]]]].
  - destruct (_on_message_try ops (JDict kvs) s) as [[r s1] t1] eqn:Htry.
    unfold outcome, trace in *. simpl in *. subst r t1.
    rewrite (try_except_ok _ _ _ _ _ _ Htry). split; [done|]. simpl.
    rewrite reply_ids_app, (reply_ids_handler_events calls) by done.
    rewrite (reply_ids_reply _ _ Hrep). simpl.
    by rewrite (dict_get_or_Some kvs "id" JNull (JStr rid)).
  - pose proof (on_message_try_raises_plainly ops kvs s e Hplain He) as Hcls.
    destruct (_on_message_try ops (JDict kvs) s) as [[r [a1 w1]] t1] eqn:Htry.
    unfold outcome, trace in *. simpl in *. subst r t1.
    rewrite (try_except_raise _ _ _ _ _ _ Htry).
    rewrite on_message_except_dict, Hcls.
    rewrite (dict_get_or_Some kvs "id" JNull (JStr rid)) by done.
    simpl. destruct (String.eqb_spec rid ""); [done|].
    split; [done|]. simpl.
    rewrite reply_ids_app, (reply_ids_handler_events calls) by done.
    reflexivity.
Qed.

(** Answerable requests, served by handlers that fail plainly, are all
    answered, each once, in the order of their arrival. *)
Lemma deliver_answers_all ops msgs s :
  plain_failures ops ->
  Forall answerable msgs ->
  outcome (deliver ops msgs s) = Ok tt
  /\ reply_ids (trace (deliver ops msgs s)) = request_id_of <$> msgs.
Proof.
  intros Hplain Hmsgs. revert s.
  induction Hmsgs as [|msg msgs Hmsg _ IH]; intros s; [done|].
  rewrite deliver_cons.
  destruct (on_message_answers ops msg s Hplain Hmsg) as [Hok Hids].
  destruct (_on_message ops msg s) as [[[[]|e] s1] t1];
    unfold outcome, trace in *; simpl in *; [|done].
  destruct (IH s1) as [Hok' Hids'].
  split; [done|]. by rewrite reply_ids_app, Hids, Hids'.
Qed.

(** C9: for every sequence of inbound messages handed to [_on_message] one
    after the other, the trace is the concatenation of one block per message
    handled, in the order of arrival; each block holds the events of its own
    message only: at most one handler call, then at most one reply, whose
    [requestId] is the [id] of that message.  So a request's handler starts
    only after the reply to the request before it has been published, and the
    [requestId]s of the published replies follow the order of the requests;
    when every request is answerable and the handlers fail plainly, they are
    exactly the [id]s of the requests, in the order of arrival. *)
Theorem deliver_in_order ops msgs s :
  (exists blocks,
      trace (deliver ops msgs s) = concat blocks
      /\ Forall2 (fun msg t => message_block (request_id_of msg) t)
                 (take (length blocks) msgs) blocks
      /\ (outcome (deliver ops msgs s) = Ok tt -> length blocks = length msgs))
  /\ reply_ids (trace (deliver ops msgs s))
       `sublist_of` (request_id_of <$> msgs)
  /\ (plain_failures ops ->
      Forall answerable msgs ->
      reply_ids (trace (deliver ops msgs s)) = request_id_of <$> msgs).
Proof.
  destruct (deliver_blocks ops msgs s) as (blocks & Htrace & Hblocks & Hlen).
  split; [by exists blocks|]. split.
  - rewrite Htrace. etrans; [by apply reply_ids_blocks|].
    apply fmap_sublist, sublist_take.
  - intros Hplain Hmsgs. by apply deliver_answers_all.
Qed.

End ServingFacts.

(** ** Status and shutdown *)

Section LifecycleFacts.

Context {World : Type} `{!Platform World}.

Implicit Types (ops : gmap string (handler World)) (a : agent) (w : World).

Lemma status_packet_operations (id : string) (timestamp : Z) (status : string)
    (names : list string) :
  payload_field "operations" (status_packet id timestamp status names)
  = Some (JList (JStr <$> names)).
Proof. reflexivity. Qed.

Lemma status_publish_ok_status ops (id : string) (timestamp : Z)
    (status : string) :
  status_publish_ok ops
    (EvPublish TOPICS_STATUS
       (status_packet id timestamp status (list_operations ops)) 1 true).
Proof. intros _. by rewrite status_packet_operations. Qed.

Lemma status_publish_ok_reply ops (request_id : json) (ev : event) :
  is_reply request_id ev -> status_publish_ok ops ev.
Proof.
  intros (id & timestamp & [[data ->]|[message ->]]);
    by intros [Htopic|Htype].
Qed.

Lemma status_publish_ok_block ops (request_id : json) (t : list event) :
  message_block request_id t -> Forall (status_publish_ok ops) t.
Proof.
  intros (calls & replies & -> & Hcalls & Hreplies).
  apply Forall_app. split.
  - destruct Hcalls as [->|(name & params & evs & ->)]; [done|].
    constructor; [done|]. apply Forall_forall. intros ev Hev.
    by apply list_elem_of_fmap in Hev as [e [-> _]].
  - destruct Hreplies as [->|(ev & -> & Hrep)]; [done|].
    constructor; [|done]. by eapply status_publish_ok_reply.
Qed.

(** C6: [_publish_status] publishes one packet, retained, whose [operations]
    field is [list_operations] of the registry at that moment; that list is
    sorted, has no duplicate and holds exactly the registered names; and every
    Status Envelope that an entry point of the agent publishes ([_on_connect],
    [_on_message], [stop]) carries that list and is retained. *)
Theorem status_lists_sorted_operations ops :
  (forall (status : string) a w,
      published (trace (_publish_status ops status (a, w)))
      = [(TOPICS_STATUS,
          status_packet (stamp_id w) (stamp_time w) status (list_operations ops),
          1, true)])
  /\ StronglySorted String.le (list_operations ops)
  /\ NoDup (list_operations ops)
  /\ (forall name : string,
         name ∈ list_operations ops <-> is_Some (lookup_operation ops name))
  /\ (forall (p : entry_point) (s : agent * World),
         Forall (status_publish_ok ops) (trace (enter ops p s))).
Proof.
  split; [intros status a w; by rewrite publish_status_run|].
  split; [apply list_operations_sorted|].
  split; [apply list_operations_NoDup|].
  split; [apply elem_of_list_operations|].
  intros [reason_code|msg|] [a w]; simpl.
  - rewrite on_connect_run. destruct (Z.eqb reason_code 0); [|done].
    constructor; [done|]. constructor; [|done].
    apply status_publish_ok_status.
  - eapply status_publish_ok_block, on_message_block.
  - rewrite stop_run. constructor; [apply status_publish_ok_status|].
    by repeat constructor.
Qed.


(** Only [stop] closes the event loop: callbacks of the client leave the
    fields of the agent as they are.  So an agent that has not been stopped
    serves its requests with the loop open, which is what the theorems on
    [execute] above ask for. *)
Lemma callbacks_leave_agent ops (ps : list entry_point) (s : agent * World) :
  Stop ∉ ps -> agent_after (enter_all ops ps s) = fst s.
Proof.
  revert s. induction ps as [|p ps IH]; intros s Hstop; [done|].
  apply not_elem_of_cons in Hstop as [Hp Hps]. simpl. rewrite bind_run.
  assert (Hag : agent_after (enter ops p s) = fst s).
  { destruct p as [reason_code|msg|]; [|apply on_message_block|done].
    destruct s as [a w]. simpl. rewrite on_connect_run.
    by destruct (Z.eqb reason_code 0). }
  destruct (enter ops p s) as [[[[]|e] s1] t1];
    unfold agent_after in *; simpl in *; [|done].
  by rewrite IH.
Qed.

Lemma loop_open_while_serving ops (ps : list entry_point) (w : World) :
  Stop ∉ ps -> loop_closed (agent_after (enter_all ops ps (init, w))) = false.
Proof. intros Hstop. by rewrite callbacks_leave_agent. Qed.

(** The registry after [load_all] on the empty dict: its names, sorted as a
    Status Envelope lists them; none of them is empty; and [run_command] is
    the handler of its name. *)
Lemma load_all_operations (defined : string -> handler World) :
  list_operations (load_all defined ∅)
  = ["close_window"; "focus_window"; "get_clipboard"; "get_volume";
     "kill_process"; "list_processes"; "list_windows"; "maximize_window";
     "minimize_window"; "notification"; "open_app"; "open_url";
     "run_command"; "screenshot"; "set_clipboard"; "set_volume";
     "system_info"].
Proof. vm_compute. reflexivity. Qed.

Lemma load_all_no_empty_name (defined : string -> handler World) :
  lookup_operation (load_all defined ∅) "" = None.
Proof. reflexivity. Qed.

Lemma load_all_run_command (defined : string -> handler World) :
  lookup_operation (load_all defined ∅) "run_command"
  = Some (Handler false run_command).
Proof. reflexivity. Qed.

(** [main] on a signal: [signal_handler] stops the agent and raises
    [SystemExit] in the main thread, whose [finally] stops the agent a second
    time; the offline status is published twice. *)
Lemma signal_shutdown_stops_twice ops a w :
  exists w1 w2 packet1 packet2,
    start ops (signal_handler ops) (a, w)
    = (Raise (Exn SystemExit "0"),
       ({| running := false; loop_closed := true |}, w2),
       [EvWsSetOptions "/"; EvConnect MQTT_BROKER_HOST MQTT_BROKER_PORT;
        EvLoopStart;
        EvPublish TOPICS_STATUS packet1 1 true;
        EvSleep 500; EvLoopStop; EvDisconnect; EvLoopClose;
        EvPublish TOPICS_STATUS packet2 1 true;
        EvSleep 500; EvLoopStop; EvDisconnect; EvLoopClose])
    /\ packet1 = status_packet (stamp_id w) (stamp_time w) "offline"
                   (list_operations ops)
    /\ packet2 = status_packet (stamp_id w1) (stamp_time w1) "offline"
                   (list_operations ops)
    /\ w1 = stamp_world w /\ w2 = stamp_world w1.
Proof.
  do 4 eexists. split; [|done].
  unfold start, signal_handler, try_finally, try_except, bind, emit,
    set_running, raise. simpl.
  rewrite !stop_run. simpl. rewrite !stop_run. reflexivity.
Qed.

End LifecycleFacts.

(** ** [run_command] *)

Section ShellFacts.

Context {World : Type} `{!Platform World}.

Implicit Types (ops : gmap string (handler World)) (a : agent) (w : World).
Implicit Types (params command timeout : json).


(** [run_command] calls [subprocess.run] at most once, with the command of
    the request and the capped timeout. *)
Lemma run_command_spawn params w command timeout :
  SubprocessRun command timeout ∈ snd (run_command params w) ->
  py_get params "command" JNull = Ok command
  /\ truthy command = true
  /\ (exists requested,
         py_get params "timeout" (JInt SHELL_COMMAND_TIMEOUT) = Ok requested
         /\ py_min requested 120 = Ok timeout)
  /\ snd (run_command params w) = [SubprocessRun command timeout].
Proof.
  unfold run_command.
  destruct (py_get params "command" JNull) as [c|e]; [|by intros ?%elem_of_nil].
  destruct (truthy c) eqn:Hc; simpl; [|by intros ?%elem_of_nil].
  destruct (py_get params "timeout" _) as [requested|e];
    [|by intros ?%elem_of_nil].
  destruct (py_min requested 120) as [t|e] eqn:Hmin; [|by intros ?%elem_of_nil].
  destruct (subprocess_run c t w) as [r w1]. simpl.
  intros [= -> ->]%list_elem_of_singleton.
  split; [done|]. split; [done|]. split; [by exists requested|done].
Qed.


(** What [run_command] raises is an error of the interpreter, its own
    [ValueError], or what [subprocess.run] has raised. *)
Lemma run_command_raises params w (e : exn) (w1 : World) (evs : list os_event) :
  run_command params w = (Raised e, w1, evs) ->
  exn_cls e = OtherException
  \/ exists command timeout,
       subprocess_run command timeout w = (RunRaised e, w1).
Proof.
  unfold run_command, py_get, py_min, int_lt, interp_raise.
  destruct params as [| | | | | |kvs]; try (intros [= <- _ _]; by left).
  destruct (truthy (dict_get_or "command" kvs JNull)); simpl;
    [|intros [= <- _ _]; by left].
  destruct (dict_get_or "timeout" kvs (JInt SHELL_COMMAND_TIMEOUT))
    as [|b|z|f| | |]; try (intros [= <- _ _]; by left).
  all: match goal with
       | |- context [if ?c then _ else _] => destruct c
       | _ => idtac
       end.
  all: match goal with
       | |- context [subprocess_run ?c ?t ?w0] =>
           destruct (subprocess_run c t w0) as [[out err rc|e'] w'] eqn:Hrun;
           intros [= <- <- _]; right; eauto
       end.
Qed.


End ShellFacts.

(** ** More on the dispatcher: failures and what is never done *)

Section DispatchEdges.

Context {World : Type} `{!Platform World}.

Implicit Types (ops : gmap string (handler World)) (a : agent) (w : World).
Implicit Types (msg : mqtt_message) (kvs pl : list (string * json)).
Implicit Types (s : agent * World).

(** The [try] on a request for a registered handler, up to the result of the
    handler. *)
Lemma on_message_try_registered ops kvs pl (rid name : string)
    (fn : handler World) a w :
  dict_get "id" kvs = Some (JStr rid) ->
  dict_get "payload" kvs = Some (JDict pl) ->
  dict_get "action" pl = Some (JStr name) ->
  name <> "" ->
  lookup_operation ops name = Some fn ->
  loop_closed a = false ->
  _on_message_try ops (JDict kvs) (a, w)
  = bind (call name fn (params_of pl)) (_publish_response (JStr rid)) (a, w).
Proof.
  intros Hid Hpl Hact Hname Hfn Hloop.
  rewrite (on_message_try_dict ops kvs pl) by (by apply dict_get_or_Some).
  rewrite (dict_get_or_Some pl "action" JNull (JStr name)) by done.
  rewrite (dict_get_or_Some kvs "id" JNull (JStr rid)) by done.
  simpl. destruct (String.eqb_spec name ""); [done|]. simpl.
  rewrite !bind_run. unfold run_until_complete. simpl. rewrite Hloop.
  by rewrite (execute_registered ops name fn).
Qed.

(** X2.  A handler that raises [json.JSONDecodeError] is taken for a malformed
    payload: the first [except] clause catches its exception, and the request
    gets no reply although the handler has run. *)
Theorem on_message_handler_json_error ops msg a w kvs pl (rid name : string)
    (fn : handler World) (e : exn) (w1 : World) (evs : list os_event) :
  topic msg = TOPICS_REQUEST ->
  decode_loads (payload msg) = Ok (JDict kvs) ->
  dict_get "id" kvs = Some (JStr rid) ->
  dict_get "payload" kvs = Some (JDict pl) ->
  dict_get "action" pl = Some (JStr name) ->
  name <> "" ->
  lookup_operation ops name = Some fn ->
  run fn (params_of pl) w = (Raised e, w1, evs) ->
  exn_cls e = JSONDecodeError ->
  loop_closed a = false ->
  _on_message ops msg (a, w)
  = (Ok tt, (a, w1), EvCall name (params_of pl) :: map EvOS evs)
  /\ published (trace (_on_message ops msg (a, w))) = [].
Proof.
  intros Ht Hdata Hid Hpl Hact Hname Hfn Hrun Hcls Hloop.
  assert (Heq : _on_message ops msg (a, w)
                = (Ok tt, (a, w1), EvCall name (params_of pl) :: map EvOS evs)).
  { rewrite on_message_request_topic, Hdata by done.
    erewrite try_except_raise; cycle 1.
    { rewrite (on_message_try_registered ops kvs pl rid name fn) by done.
      rewrite bind_run. unfold call. simpl. rewrite Hrun. reflexivity. }
    rewrite on_message_except_dict, Hcls. simpl. by rewrite app_nil_r. }
  split; [exact Heq|]. rewrite Heq. unfold trace. cbn [snd].
  rewrite <- (app_nil_r (map EvOS evs)). by rewrite published_call.
Qed.

(** X3.  An exception of a handler that is outside [Exception] ([SystemExit],
    [KeyboardInterrupt]) leaves [_on_message]: no clause catches it and no
    envelope is published. *)
Theorem on_message_handler_exit ops msg a w kvs pl (rid name : string)
    (fn : handler World) (e : exn) (w1 : World) (evs : list os_event) :
  topic msg = TOPICS_REQUEST ->
  decode_loads (payload msg) = Ok (JDict kvs) ->
  dict_get "id" kvs = Some (JStr rid) ->
  dict_get "payload" kvs = Some (JDict pl) ->
  dict_get "action" pl = Some (JStr name) ->
  name <> "" ->
  lookup_operation ops name = Some fn ->
  run fn (params_of pl) w = (Raised e, w1, evs) ->
  exn_cls e = SystemExit \/ exn_cls e = KeyboardInterrupt ->
  loop_closed a = false ->
  _on_message ops msg (a, w)
  = (Raise e, (a, w1), EvCall name (params_of pl) :: map EvOS evs).
Proof.
  intros Ht Hdata Hid Hpl Hact Hname Hfn Hrun Hcls Hloop.
  rewrite on_message_request_topic, Hdata by done.
  erewrite try_except_raise; cycle 1.
  { rewrite (on_message_try_registered ops kvs pl rid name fn) by done.
    rewrite bind_run. unfold call. simpl. rewrite Hrun. reflexivity. }
  rewrite on_message_except_dict.
  destruct Hcls as [-> | ->]; simpl; by rewrite app_nil_r.
Qed.

(** X4.  A handler whose result [json.dumps] rejects: the handler has run, and
    exactly one envelope is published, to the response topic.  It is no
    Response Envelope but an Error Envelope ([type] is "error") whose
    [payload.requestId] is the request's [id] and whose [payload.message] is
    the text of the error of [json.dumps]; the packet that failed has drawn an
    id and a timestamp of its own, so those of the Error Envelope are the
    next ones. *)
Theorem on_message_unserializable_result ops msg a w kvs pl (rid name : string)
    (fn : handler World) (dumps_error : string) (w1 : World)
    (evs : list os_event) :
  topic msg = TOPICS_REQUEST ->
  decode_loads (payload msg) = Ok (JDict kvs) ->
  dict_get "id" kvs = Some (JStr rid) ->
  rid <> "" ->
  dict_get "payload" kvs = Some (JDict pl) ->
  dict_get "action" pl = Some (JStr name) ->
  name <> "" ->
  lookup_operation ops name = Some fn ->
  run fn (params_of pl) w = (Returned (NotJson dumps_error), w1, evs) ->
  loop_closed a = false ->
  exists packet,
    _on_message ops msg (a, w)
    = (Ok tt, (a, stamp_world (stamp_world w1)),
       EvCall name (params_of pl) :: map EvOS evs
         ++ [EvPublish TOPICS_RESPONSE packet 1 false])
    /\ published (trace (_on_message ops msg (a, w)))
       = [(TOPICS_RESPONSE, packet, 1, false)]
    /\ packet_field "type" packet = Some (JStr "error")
    /\ payload_field "requestId" packet = Some (JStr rid)
    /\ payload_field "message" packet = Some (JStr dumps_error)
    /\ payload_field "data" packet = None
    /\ packet_field "id" packet = Some (JStr (stamp_id (stamp_world w1)))
    /\ packet_field "timestamp" packet
       = Some (JInt (stamp_time (stamp_world w1))).
Proof.
  intros Ht Hdata Hid Hrid Hpl Hact Hname Hfn Hrun Hloop.
  assert (Heq : _on_message ops msg (a, w)
                = (Ok tt, (a, stamp_world (stamp_world w1)),
                   EvCall name (params_of pl) :: map EvOS evs
                     ++ [EvPublish TOPICS_RESPONSE
                           (error_packet (stamp_id (stamp_world w1))
                              (stamp_time (stamp_world w1)) (JStr rid)
                              dumps_error) 1 false])).
  { rewrite on_message_request_topic, Hdata by done.
    erewrite try_except_raise; cycle 1.
    { rewrite (on_message_try_registered ops kvs pl rid name fn) by done.
      rewrite bind_run. unfold call. simpl. rewrite Hrun.
      rewrite publish_response_rejected. simpl. by rewrite app_nil_r. }
    rewrite on_message_except_dict.
    rewrite (dict_get_or_Some kvs "id" JNull (JStr rid)) by done.
    simpl. destruct (String.eqb_spec rid ""); [done|]. reflexivity. }
  eexists. split; [exact Heq|]. rewrite Heq. split; [|done].
  unfold trace. cbn [snd]. by rewrite published_call.
Qed.

(** X5.  A payload that is JSON but no object (a list, a string, a number,
    [null]): [data.get] raises in the [try] and again in the [except] clause,
    so the exception leaves [_on_message]; nothing is published for this
    message, and the messages behind it in [deliver] are not handled. *)
Theorem deliver_not_an_object ops msg (rest : list mqtt_message) s (data : json) :
  topic msg = TOPICS_REQUEST ->
  decode_loads (payload msg) = Ok data ->
  (forall kvs, data <> JDict kvs) ->
  _on_message ops msg s
  = (Raise (Exn OtherException (err_text (NoAttributeGet (type_name data)))),
     s, [])
  /\ deliver ops (msg :: rest) s
     = (Raise (Exn OtherException (err_text (NoAttributeGet (type_name data)))),
        s, []).
Proof.
  intros Ht Hdata Hdict.
  assert (Heq : _on_message ops msg s
    = (Raise (Exn OtherException (err_text (NoAttributeGet (type_name data)))),
       s, [])).
  { rewrite on_message_request_topic, Hdata by done.
    destruct s as [a w].
    destruct data as [| | | | | |kvs]; try reflexivity. by destruct (Hdict kvs). }
  split; [exact Heq|]. by rewrite deliver_cons, Heq.
Qed.

(** X6.  A request whose [payload] is given and is no dict (a string, a list,
    [null]): the default [{}] does not apply and [payload.get] raises.  No
    handler is called, and exactly one envelope is published, to the response
    topic: an Error Envelope ([type] is "error") whose [payload.requestId] is
    the request's [id] and whose [payload.message] is the text of that
    error. *)
Theorem on_message_payload_not_a_dict ops msg a w kvs (p : json) (rid : string) :
  topic msg = TOPICS_REQUEST ->
  decode_loads (payload msg) = Ok (JDict kvs) ->
  dict_get "id" kvs = Some (JStr rid) ->
  rid <> "" ->
  dict_get "payload" kvs = Some p ->
  (forall pl, p <> JDict pl) ->
  exists packet,
    _on_message ops msg (a, w)
    = (Ok tt, (a, stamp_world w), [EvPublish TOPICS_RESPONSE packet 1 false])
    /\ packet_field "type" packet = Some (JStr "error")
    /\ payload_field "requestId" packet = Some (JStr rid)
    /\ payload_field "message" packet
       = Some (JStr (err_text (NoAttributeGet (type_name p))))
    /\ packet_field "id" packet = Some (JStr (stamp_id w))
    /\ packet_field "timestamp" packet = Some (JInt (stamp_time w)).
Proof.
  intros Ht Hdata Hid Hrid Hp Hdict.
  exists (error_packet (stamp_id w) (stamp_time w) (JStr rid)
            (err_text (NoAttributeGet (type_name p)))).
  split; [|by repeat (split; [reflexivity|])].
  rewrite on_message_request_topic, Hdata by done.
  erewrite (try_except_raise _ _ _
              (Exn OtherException (err_text (NoAttributeGet (type_name p))))
              (a, w) []); cycle 1.
  { unfold _on_message_try.
    rewrite py_get_dict, bind_lift_ok, py_get_dict, bind_lift_ok.
    rewrite (dict_get_or_Some kvs "payload" (JDict []) p) by done.
    destruct p as [| | | | | |pl]; try reflexivity. by destruct (Hdict pl). }
  rewrite on_message_except_dict.
  rewrite (dict_get_or_Some kvs "id" JNull (JStr rid)) by done.
  simpl. destruct (String.eqb_spec rid ""); [done|]. reflexivity.
Qed.

End DispatchEdges.

(** ** Which handler is called, and what goes over the client *)

Section DisciplineFacts.

Context {World : Type} `{!Platform World}.

Implicit Types (ops : gmap string (handler World)) (a : agent) (w : World).
Implicit Types (msg : mqtt_message) (kvs pl : list (string * json)).
Implicit Types (s : agent * World) (t : list event).

Lemma call_in_handler_events (name name' : string) (p p' : json)
    (evs : list os_event) :
  EvCall name p ∈ EvCall name' p' :: map EvOS evs -> name = name' /\ p = p'.
Proof.
  intros [Heq|Hin]%elem_of_cons; [by simplify_eq|].
  by apply list_elem_of_fmap in Hin as [e [? _]].
Qed.

Lemma execute_calls ops (action params : json) s (name : string) (p : json) :
  EvCall name p ∈ trace (execute ops action params s) ->
  action = JStr name
  /\ is_Some (lookup_operation ops name)
  /\ p = (if truthy params then params else JDict []).
Proof.
  unfold execute, operations_get.
  destruct action as [| | | |n| |];
    try (rewrite ?bind_lift_ok; by intros ?%elem_of_nil).
  destruct (lookup_operation ops n) as [fn|] eqn:Hfn;
    rewrite bind_lift_ok; [|by intros ?%elem_of_nil].
  assert (Hcall : forall q,
             EvCall name p ∈ trace (call n fn q s) -> name = n /\ p = q).
  { intros q. unfold call. destruct (run fn q (snd s)) as [[r w1] evs].
    apply call_in_handler_events. }
  intros Hin.
  assert (name = n /\ p = (if truthy params then params else JDict []))
    as [-> ->] by (destruct (is_coroutine fn); by apply Hcall).
  by rewrite Hfn.
Qed.

Lemma no_call_in_reply (request_id : json) (ev : event) (name : string)
    (p : json) :
  is_reply request_id ev -> EvCall name p <> ev.
Proof. by intros (id & timestamp & [[data ->]|[message ->]]). Qed.

(** X7.  A handler is called only for a message on the request topic that decodes
    to a dict with a dict payload, on an open event loop, under the name that
    the [action] of the request gives, which is registered and not empty; and
    its parameters are those of the request, or [{}] when these are missing
    or falsy. *)
Theorem on_message_calls_registered ops msg s (name : string) (p : json) :
  EvCall name p ∈ trace (_on_message ops msg s) ->
  topic msg = TOPICS_REQUEST
  /\ loop_closed (fst s) = false
  /\ is_Some (lookup_operation ops name)
  /\ name <> ""
  /\ (p = JDict [] \/ truthy p = true)
  /\ exists kvs pl,
       decode_loads (payload msg) = Ok (JDict kvs)
       /\ dict_get_or "payload" kvs (JDict []) = JDict pl
       /\ dict_get_or "action" pl JNull = JStr name
       /\ p = params_of pl.
Proof.
  destruct (decide (topic msg = TOPICS_REQUEST)) as [Ht|Ht];
    [|rewrite on_message_other_topic by done; by intros ?%elem_of_nil].
  rewrite on_message_request_topic by done.
  destruct (decode_loads (payload msg)) as [data|e] eqn:Hdata;
    [|rewrite on_message_except_unbound; by intros ?%elem_of_nil].
  intros Hin.
  assert (Htry : EvCall name p ∈ trace (_on_message_try ops data s)).
  { destruct (_on_message_try ops data s) as [[[[]|e] s1] t1] eqn:Htry.
    - by rewrite (try_except_ok _ _ _ _ _ _ Htry) in Hin.
    - rewrite (try_except_raise _ _ _ _ _ _ Htry) in Hin.
      unfold trace in Hin at 1. simpl in Hin.
      apply elem_of_app in Hin as [Hin|Hin]; [done|].
      destruct (on_message_except_shape data e s1) as [_ [Hnil|(ev & Hev & Hrep)]].
      + rewrite Hnil in Hin. by apply elem_of_nil in Hin.
      + rewrite Hev in Hin. apply list_elem_of_singleton in Hin.
        by destruct (no_call_in_reply _ _ _ _ Hrep Hin). }
  clear Hin. destruct s as [a w].
  destruct data as [| | | | | |kvs]; try by apply elem_of_nil in Htry.
  destruct (dict_get_or "payload" kvs (JDict [])) as [| | | | | |pl] eqn:Hpl;
    try (unfold _on_message_try in Htry;
         rewrite py_get_dict, bind_lift_ok, py_get_dict, bind_lift_ok, Hpl
           in Htry;
         by apply elem_of_nil in Htry).
  rewrite (on_message_try_dict ops kvs pl) in Htry by done.
  destruct (truthy (dict_get_or "action" pl JNull)) eqn:Hact; simpl in Htry.
  2:{ rewrite publish_error_run in Htry.
      by apply list_elem_of_singleton in Htry. }
  destruct (slice8 _) as [[]|e]; [|by apply elem_of_nil in Htry].
  rewrite bind_run in Htry. unfold run_until_complete in Htry.
  simpl fst in Htry.
  destruct (loop_closed a) eqn:Hloop; [by apply elem_of_nil in Htry|].
  assert (Hexec : EvCall name p
                    ∈ trace (execute ops (dict_get_or "action" pl JNull)
                               (dict_get_or "params" pl (JDict [])) (a, w))).
  { destruct (execute _ _ _ _) as [[[o|e] [a1 w1]] t1]; [|done].
    unfold trace in Htry at 1. simpl in Htry.
    apply elem_of_app in Htry as [Hin|Hin]; [done|].
    destruct (publish_response_shape (dict_get_or "id" kvs JNull) o (a1, w1))
      as [_ [[_ (ev & Hev & Hrep)]|[_ Hnil]]].
    - rewrite Hev in Hin. apply list_elem_of_singleton in Hin.
      by destruct (no_call_in_reply _ _ _ _ Hrep Hin).
    - rewrite Hnil in Hin. by apply elem_of_nil in Hin. }
  apply execute_calls in Hexec as (Haction & Hreg & Hp).
  split; [done|]. split; [done|]. split; [done|].
  split; [intros ->; by rewrite Haction in Hact|].
  split.
  - rewrite Hp. destruct (truthy (dict_get_or "params" pl (JDict []))) eqn:Hpar;
      [by right|by left].
  - by exists kvs, pl.
Qed.

(** X8.  Whatever the client calls back and in whatever order, the agent keeps to
    [wire_ok]: in particular it never publishes to the request topic that it
    listens on, and never publishes with another quality of service than 1.
    And as long as [stop] is not among the calls, the fields of the agent stay
    as they were. *)
Theorem callbacks_keep_wire_discipline ops (ps : list entry_point) s :
  Forall wire_ok (trace (enter_all ops ps s))
  /\ (Stop ∉ ps -> agent_after (enter_all ops ps s) = fst s).
Proof.
  split; [|apply callbacks_leave_agent].
  revert s. induction ps as [|p ps IH]; intros s; [done|].
  simpl. rewrite bind_run.
  assert (Hp : Forall wire_ok (trace (enter ops p s))).
  { destruct p as [reason_code|msg|]; destruct s as [a w]; simpl.
    - rewrite on_connect_run. destruct (Z.eqb reason_code 0); [|done].
      constructor; [by split|]. constructor; [|done].
      split; [done|by right].
    - destruct (on_message_block ops msg (a, w))
        as [_ (calls & replies & -> & Hcalls & Hreplies)].
      apply Forall_app. split.
      + destruct Hcalls as [->|(name & params & evs & ->)]; [done|].
        constructor; [done|]. apply Forall_forall. intros ev Hev.
        by apply list_elem_of_fmap in Hev as [e [-> _]].
      + destruct Hreplies as [->|(ev & -> & Hrep)]; [done|].
        constructor; [|done].
        destruct Hrep as (id & timestamp & [[data ->]|[message ->]]);
          (split; [done|by left]).
    - rewrite stop_run. constructor; [split; [done|by right]|].
      by repeat (constructor; [done|]). }
  destruct (enter ops p s) as [[[[]|e] s1] t1]; [|done].
  unfold trace in *. simpl in *. apply Forall_app. split; [done|apply IH].
Qed.

(** X9.  [start] always ends in [stop]: whatever happens while the agent serves
    (it returns, it is interrupted from the keyboard, it raises), the trace of
    [start] is the three calls that open the client, then what serving left,
    then one envelope published retained to the status topic, the sleep and
    the closing calls.  That envelope is a Status Envelope ([type] is
    "status") whose [payload.status] is "offline" and whose
    [payload.operations] are the registered names.  The agent is left stopped
    with its loop closed; a [KeyboardInterrupt] is swallowed and any other
    exception is raised again after [stop]. *)
Theorem start_always_stops ops (serving : M unit) a w :
  (exists packet,
     trace (start ops serving (a, w))
     = ([EvWsSetOptions "/"; EvConnect MQTT_BROKER_HOST MQTT_BROKER_PORT;
         EvLoopStart]
        ++ trace (serving ({| running := true; loop_closed := loop_closed a |},
                           w))
        ++ [EvPublish TOPICS_STATUS packet 1 true;
            EvSleep 500; EvLoopStop; EvDisconnect; EvLoopClose])%list
     /\ packet_field "type" packet = Some (JStr "status")
     /\ payload_field "status" packet = Some (JStr "offline")
     /\ payload_field "operations" packet
        = Some (JList (JStr <$> list_operations ops))
     /\ packet_field "id" packet
        = Some (JStr (stamp_id (world_after (serving
                  ({| running := true; loop_closed := loop_closed a |}, w)))))
     /\ packet_field "timestamp" packet
        = Some (JInt (stamp_time (world_after (serving
                  ({| running := true; loop_closed := loop_closed a |}, w))))))
  /\ agent_after (start ops serving (a, w))
     = {| running := false; loop_closed := true |}
  /\ outcome (start ops serving (a, w))
     = match outcome (serving
                        ({| running := true; loop_closed := loop_closed a |}, w))
       with
       | Ok _ => Ok tt
       | Raise e =>
           match exn_cls e with
           | KeyboardInterrupt => Ok tt
           | _ => Raise e
           end
       end.
Proof.
  unfold start, try_finally, try_except, bind, emit, set_running, raise, ret.
  simpl.
  destruct (serving _) as [[[[]|e] [a1 w1]] t1]; simpl.
  - rewrite stop_run. split; [|done].
    eexists. split; [reflexivity|]. by repeat (split; [reflexivity|]).
  - destruct (exn_cls e); simpl; rewrite stop_run; simpl;
      rewrite ?app_nil_r;
      (split; [|done]);
      (eexists; split; [reflexivity|]; by repeat (split; [reflexivity|])).
Qed.

End DisciplineFacts.

(** ** More on the registry and on [load_all] *)

Section RegistryMore.

Context {World : Type} `{!Platform World}.

Implicit Types (ops : gmap string (handler World)) (fn : handler World).

(** X10.  Registering a handler adds its name to the listed names and touches no
    other entry: the names afterwards are the name and those before, every
    other name keeps its handler, and the registry grows by at most one. *)
Theorem operation_adds_one_name ops (name : string) fn :
  (forall n : string,
      n ∈ list_operations (operation name fn ops)
      <-> n = name \/ n ∈ list_operations ops)
  /\ (forall n : string,
         n <> name ->
         lookup_operation (operation name fn ops) n = lookup_operation ops n)
  /\ (size ops <= size (operation name fn ops) <= S (size ops))%nat.
Proof.
  split; [|split].
  - intros n. rewrite !elem_of_list_operations. unfold lookup_operation, operation.
    destruct (decide (n = name)) as [->|Hne].
    + rewrite lookup_insert_eq. split; [by left|by eauto].
    + rewrite lookup_insert_ne by done. split; [by right|by intros [?|?]].
  - intros n Hne. by apply lookup_operation_other.
  - unfold operation. destruct (ops !! name) as [fn'|] eqn:Hops.
    + rewrite map_size_insert_Some by eauto. lia.
    + rewrite map_size_insert_None by done. lia.
Qed.

Lemma lookup_fold_operation (f : string -> handler World) (names : list string)
    ops (name : string) :
  lookup_operation
    (fold_left (fun ops n => operation n (f n) ops) names ops) name
  = if decide (name ∈ names) then Some (f name) else lookup_operation ops name.
Proof.
  revert ops. induction names as [|n names IH]; intros ops; cbn [fold_left].
  { destruct (decide (name ∈ [])) as [Hin|_]; [by apply elem_of_nil in Hin|done]. }
  rewrite IH.
  destruct (decide (name ∈ names)) as [Hin|Hnin];
    destruct (decide (name ∈ n :: names)) as [Hin'|Hnin']; try done.
  - destruct Hnin'. by right.
  - apply elem_of_cons in Hin' as [->|?]; [|done].
    apply lookup_operation_registered.
  - apply lookup_operation_other. intros ->. apply Hnin'. by left.
Qed.

(** X11.  [load_all] on any registry: each of the seventeen names of the modules
    is bound to the function its module defines ([run_command] for the shell
    module), and every other name keeps what it had. *)
Theorem load_all_registers_modules (defined : string -> handler World) ops :
  (forall name : string,
      name ∈ module_operations ->
      lookup_operation (load_all defined ops) name
      = Some (if String.eqb name "run_command"
              then Handler false run_command
              else defined name))
  /\ (forall name : string,
         name ∉ module_operations ->
         lookup_operation (load_all defined ops) name
         = lookup_operation ops name)
  /\ length module_operations = 17%nat
  /\ NoDup module_operations.
Proof.
  split; [|split; [|split]].
  - intros name Hin. unfold load_all.
    rewrite (lookup_fold_operation
               (fun n => if String.eqb n "run_command"
                         then Handler false run_command else defined n)).
    by destruct (decide (name ∈ module_operations)).
  - intros name Hnin. unfold load_all.
    rewrite (lookup_fold_operation
               (fun n => if String.eqb n "run_command"
                         then Handler false run_command else defined n)).
    by destruct (decide (name ∈ module_operations)).
  - reflexivity.
  - apply (bool_decide_unpack _). vm_compute. reflexivity.
Qed.

End RegistryMore.

(** ** More on [run_command] *)

Section ShellMore.

Context {World : Type} `{!Platform World}.

Implicit Types (w : World) (params command timeout : json).
Implicit Types (kvs : list (string * json)).

(** X12.  [run_command] calls [subprocess.run] exactly when its parameters are a
    dict with a truthy [command] and a [timeout] (given, or the configured
    default) that [min] can compare with 120; the process gets the command of
    the request untouched.  When it does not call [subprocess.run] it raises
    an [Exception] and leaves the machine as it was. *)
Theorem run_command_spawns_iff params w command timeout :
  (SubprocessRun command timeout ∈ snd (run_command params w)
   <-> exists kvs,
         params = JDict kvs
         /\ command = dict_get_or "command" kvs JNull
         /\ truthy command = true
         /\ py_min (dict_get_or "timeout" kvs (JInt SHELL_COMMAND_TIMEOUT)) 120
            = Ok timeout)
  /\ (snd (run_command params w) = [] ->
      exists e, run_command params w = (Raised e, w, [])
                /\ exn_cls e = OtherException).
Proof.
  split; [split|].
  - intros Hspawn.
    destruct (run_command_spawn _ _ _ _ Hspawn)
      as (Hcommand & Htruthy & (requested & Hrequested & Hmin) & _).
    destruct params as [| | | | | |kvs]; try done.
    rewrite py_get_dict in Hcommand, Hrequested.
    injection Hcommand as <-. injection Hrequested as <-. by exists kvs.
  - intros (kvs & -> & -> & Htruthy & Hmin). unfold run_command.
    rewrite !py_get_dict, Htruthy, Hmin. simpl.
    destruct (subprocess_run _ _ _) as [r w1]. simpl. by left.
  - unfold run_command, py_get, interp_raise.
    destruct params as [| | | | | |kvs]; try (intros _; by eexists).
    destruct (truthy _); simpl; [|intros _; by eexists].
    destruct (py_min _ 120) as [t|e] eqn:Hmin.
    + by destruct (subprocess_run _ _ _) as [r w1].
    + intros _. exists e. split; [done|].
      revert Hmin. unfold py_min, int_lt, interp_raise.
      destruct (dict_get_or "timeout" kvs _); repeat case_match;
        by intros [= <-].
Qed.

(** X13.  The timeout a request gets: without a [timeout] key it is the configured
    default, capped; with an [int] it is that [int], capped; and a [timeout]
    that is given as [null] or as a string is not replaced by the default:
    [min] raises on it and no process is started. *)
Theorem run_command_timeout_of_request kvs w :
  truthy (dict_get_or "command" kvs JNull) = true ->
  (dict_get "timeout" kvs = None ->
   snd (run_command (JDict kvs) w)
   = [SubprocessRun (dict_get_or "command" kvs JNull)
        (JInt (Z.min SHELL_COMMAND_TIMEOUT 120))])
  /\ (forall z : Z,
         dict_get "timeout" kvs = Some (JInt z) ->
         snd (run_command (JDict kvs) w)
         = [SubprocessRun (dict_get_or "command" kvs JNull)
              (JInt (Z.min z 120))])
  /\ (forall v : json,
         dict_get "timeout" kvs = Some v ->
         v = JNull \/ (exists text, v = JStr text) ->
         run_command (JDict kvs) w
         = (Raised (Exn OtherException
                      (err_text (LtNotSupported (type_name v)))), w, [])).
Proof.
  intros Htruthy.
  assert (Hint : forall z : Z,
             dict_get_or "timeout" kvs (JInt SHELL_COMMAND_TIMEOUT) = JInt z ->
             snd (run_command (JDict kvs) w)
             = [SubprocessRun (dict_get_or "command" kvs JNull)
                  (JInt (Z.min z 120))]).
  { intros z Hz. unfold run_command.
    rewrite !py_get_dict, Htruthy, Hz. unfold py_min, int_lt. simpl.
    destruct (Z.ltb_spec 120 z).
    - rewrite Z.min_r by lia. by destruct (subprocess_run _ _ _).
    - rewrite Z.min_l by lia. by destruct (subprocess_run _ _ _). }
  split; [|split].
  - intros Hnone. apply Hint. by apply dict_get_or_None.
  - intros z Hz. apply Hint. by apply dict_get_or_Some.
  - intros v Hv Hkind. unfold run_command.
    rewrite !py_get_dict, Htruthy.
    rewrite (dict_get_or_Some kvs "timeout" _ v) by done.
    by destruct Hkind as [->|[text ->]].
Qed.

Lemma take_points_prefix (m : nat) (text : string) :
  exists rest, text = take_points m text +:+ rest /\ starts_point rest = true.
Proof.
  revert m. induction text as [|c text IH]; intros m; [by exists ""|].
  cbn [take_points]. destruct (is_continuation c) eqn:Hc.
  - destruct (IH m) as (rest & Hrest & Hcut). exists rest. split; [|done].
    simpl. rewrite Hrest at 1. reflexivity.
  - destruct m as [|m].
    { exists (String c text). split; [done|]. simpl. by rewrite Hc. }
    destruct (IH m) as (rest & Hrest & Hcut). exists rest. split; [|done].
    simpl. rewrite Hrest at 1. reflexivity.
Qed.

Lemma take_points_len (m : nat) (text : string) :
  py_len (take_points m text) = Nat.min m (py_len text).
Proof.
  revert m. induction text as [|c text IH]; intros m; [by destruct m|].
  cbn [take_points py_len]. destruct (is_continuation c) eqn:Hc.
  - cbn [py_len]. rewrite Hc. apply IH.
  - destruct m as [|m]; [done|]. cbn [py_len]. rewrite Hc, IH. done.
Qed.

(** [s[:n]] is a prefix of [s] that ends where a code point ends; for
    [n >= 0] it has [n] code points, or all of [s] when [s] is shorter; for
    [n < 0] it drops the last [-n]. *)
Lemma slice_to_spec (n : Z) (text : string) :
  (exists rest, text = slice_to n text +:+ rest /\ starts_point rest = true)
  /\ Z.of_nat (py_len (slice_to n text))
     = if Z.ltb n 0
       then Z.max 0 (Z.of_nat (py_len text) + n)
       else Z.min n (Z.of_nat (py_len text)).
Proof.
  unfold slice_to. split; [apply take_points_prefix|].
  rewrite take_points_len. destruct (Z.ltb_spec n 0); lia.
Qed.

(** X14.  The result of a command that ends: [stdout] and [stderr] are what
    the process wrote, cut after the first [SHELL_MAX_OUTPUT_SIZE] code points
    (that size being no negative number): each is a prefix that ends where a
    code point ends, and its [len] is the smaller of [SHELL_MAX_OUTPUT_SIZE]
    and the [len] of what was written; [return_code] is the code of the
    process. *)
Theorem run_command_output_capped params w command timeout
    (out err : string) (rc : Z) (w1 : World) :
  0 <= SHELL_MAX_OUTPUT_SIZE ->
  SubprocessRun command timeout ∈ snd (run_command params w) ->
  subprocess_run command timeout w = (Completed out err rc, w1) ->
  exists out' err' : string,
    run_command params w
    = (Returned (Json (JDict [("stdout", JStr out'); ("stderr", JStr err');
                             ("return_code", JInt rc)])),
       w1, [SubprocessRun command timeout])
    /\ (exists rest, out = out' +:+ rest /\ starts_point rest = true)
    /\ (exists rest, err = err' +:+ rest /\ starts_point rest = true)
    /\ Z.of_nat (py_len out')
       = Z.min SHELL_MAX_OUTPUT_SIZE (Z.of_nat (py_len out))
    /\ Z.of_nat (py_len err')
       = Z.min SHELL_MAX_OUTPUT_SIZE (Z.of_nat (py_len err)).
Proof.
  intros Hsize Hspawn Hrun.
  destruct (run_command_spawn _ _ _ _ Hspawn)
    as (Hcommand & Htruthy & (requested & Hrequested & Hmin) & _).
  exists (slice_to SHELL_MAX_OUTPUT_SIZE out),
         (slice_to SHELL_MAX_OUTPUT_SIZE err).
  split.
  { unfold run_command. by rewrite Hcommand, Htruthy, Hrequested, Hmin, Hrun. }
  destruct (slice_to_spec SHELL_MAX_OUTPUT_SIZE out) as [Hpre1 Hlen1].
  destruct (slice_to_spec SHELL_MAX_OUTPUT_SIZE err) as [Hpre2 Hlen2].
  destruct (Z.ltb_spec SHELL_MAX_OUTPUT_SIZE 0); [lia|done].
Qed.

End ShellMore.

(** ** The other handlers *)

Section HandlerFacts.

Context {World : Type} `{!Platform World} `{!Desktop World}.

Implicit Types (w : World) (params : json) (kvs : list (string * json)).
Implicit Types (cs : list os_call).

(** *** Laws of the handler monad *)

Lemma hbind_hlift_ok {A B} (x : A) (k : A -> H B) w :
  hbind (hlift (Ok x)) k w = k x w.
Proof. unfold hbind, hlift. by destruct (k x w) as [[r w2] cs2]. Qed.

Lemma hbind_hret {A B} (x : A) (k : A -> H B) w : hbind (hret x) k w = k x w.
Proof. apply hbind_hlift_ok. Qed.

Lemma hbind_hlift_raise {A B} (e : exn) (k : A -> H B) w :
  hbind (hlift (Raise e)) k w = (Raise e, w, []).
Proof. reflexivity. Qed.

Lemma hbind_os {A B} (c : os_call) (f : World -> result A * World)
    (k : A -> H B) w :
  hbind (os c f) k w
  = match f w with
    | (Ok x, w1) => (hresult (k x w1), hworld (k x w1), c :: hcalls (k x w1))
    | (Raise e, w1) => (Raise e, w1, [c])
    end.
Proof.
  unfold hbind, os. destruct (f w) as [[x|e] w1]; [|reflexivity].
  by destruct (k x w1) as [[r w2] cs2].
Qed.

Lemma hbind_run {A B} (c : H A) (k : A -> H B) w :
  hbind c k w
  = match c w with
    | (Ok x, w1, cs1) =>
        (hresult (k x w1), hworld (k x w1), (cs1 ++ hcalls (k x w1))%list)
    | (Raise e, w1, cs1) => (Raise e, w1, cs1)
    end.
Proof.
  unfold hbind. destruct (c w) as [[[x|e] w1] cs1]; [|reflexivity].
  by destruct (k x w1) as [[r w2] cs2].
Qed.

(** *** [clipboard.py] *)


(** *** [app.py] *)

(** X16.  What [open_app] starts.  Without a truthy [path] nothing; on Windows
    [os.startfile(path)], whatever [args] is; elsewhere one process whose
    arguments are [path] followed by the items of [args] in their order, and
    nothing when [args] is no list. *)
Theorem open_app_starts kvs w :
  hcalls (open_app (JDict kvs) w)
  = if truthy (dict_get_or "path" kvs JNull)
    then if os_name_is_nt
         then [OsStartfile (dict_get_or "path" kvs JNull)]
         else match dict_get_or "args" kvs (JList []) with
              | JList l =>
                  [SubprocessPopen (dict_get_or "path" kvs JNull :: l)]
              | _ => []
              end
    else [].
Proof.
  unfold open_app.
  rewrite py_get_dict, hbind_hlift_ok, py_get_dict, hbind_hlift_ok.
  destruct (truthy (dict_get_or "path" kvs JNull)); [|reflexivity]. simpl.
  rewrite hbind_run. destruct os_name_is_nt.
  - unfold os. by destruct (os_startfile _ w) as [[[]|e] w1].
  - destruct (dict_get_or "args" kvs (JList [])) as [| | | | |l|];
      try reflexivity.
    unfold list_plus. rewrite hbind_hlift_ok. unfold os.
    by destruct (subprocess_Popen _ w) as [[[]|e] w1].
Qed.

(** X17.  [open_url] says success whenever [webbrowser.open] returns, also when it
    returns [False] because no browser could be started. *)
Theorem open_url_reports_success kvs w (opened : bool) (w1 : World) :
  truthy (dict_get_or "url" kvs JNull) = true ->
  webbrowser_open (dict_get_or "url" kvs JNull) w = (Ok opened, w1) ->
  open_url (JDict kvs) w
  = (Ok (JDict [("success", JBool true)]), w1,
     [WebbrowserOpen (dict_get_or "url" kvs JNull)]).
Proof.
  intros Hurl Hopen. unfold open_url.
  rewrite py_get_dict, hbind_hlift_ok, Hurl. simpl.
  by rewrite hbind_os, Hopen.
Qed.

(** *** [media.py] *)

Lemma hbind_calls_in {A B} (c : H A) (k : A -> H B) w (x : os_call) :
  x ∈ hcalls (hbind c k w) ->
  x ∈ hcalls (c w)
  \/ exists (v : A) (w1 : World) cs1,
       c w = (Ok v, w1, cs1) /\ x ∈ hcalls (k v w1).
Proof.
  rewrite hbind_run. destruct (c w) as [[[v|e] w1] cs1]; [|by left].
  unfold hcalls at 1. simpl. intros [Hin|Hin]%elem_of_app; [by left|].
  right. by exists v, w1, cs1.
Qed.


(** *** [window.py] *)

Lemma filter_first {A} (P : A -> Prop) `{!forall x, Decision (P x)}
    (l : list A) (x : A) (rest : list A) :
  filter P l = x :: rest ->
  exists before after,
    l = (before ++ x :: after)%list /\ P x /\ Forall (fun y => ~ P y) before.
Proof.
  induction l as [|y l IH]; [done|].
  rewrite filter_cons. destruct (decide (P y)) as [Hy|Hy].
  - intros [= -> _]. by exists [], l.
  - intros Hl. destruct (IH Hl) as (before & after & -> & Hx & Hbefore).
    exists (y :: before), after. split; [done|]. split; [done|].
    by constructor.
Qed.

(** X19.  [_find_window] never guesses.  When it returns a window, [pygetwindow]
    is there, the windows were listed once, and the window is either the
    first one whose handle equals a truthy [hwnd], or, [hwnd] being falsy, the
    first one whose title contains the non-empty string [title], both taken
    in lower case; the title is the one the window has when the list is
    read. *)
Theorem find_window_sound (title hwnd : json) w (win : Z) (w1 : World) cs :
  _find_window title hwnd w = (Ok win, w1, cs) ->
  HAS_PYGETWINDOW = true
  /\ cs = [GetAllWindows]
  /\ exists windows,
       gw_getAllWindows w = (Ok windows, w1)
       /\ ((truthy hwnd = true
            /\ find (fun x => int_eq x hwnd) windows = Some win)
           \/ (truthy hwnd = false
               /\ exists (text : string) before after,
                    title = JStr text
                    /\ text <> ""
                    /\ windows = (before ++ win :: after)%list
                    /\ str_contains (str_lower text)
                         (str_lower (win_title win w1)) = true
                    /\ Forall (fun x =>
                                 str_contains (str_lower text)
                                   (str_lower (win_title x w1)) <> true)
                              before)).
Proof.
  unfold _find_window, _require_pygetwindow.
  destruct HAS_PYGETWINDOW; [|done]. rewrite hbind_hret.
  destruct (truthy hwnd) eqn:Hhwnd.
  - rewrite hbind_os.
    destruct (gw_getAllWindows w) as [[windows|e] w0] eqn:Hall; [|done].
    destruct (find _ windows) as [x|] eqn:Hfind; [|done].
    cbn. intros [= -> -> <-]. split; [done|]. split; [done|].
    exists windows. split; [done|]. by left.
  - destruct (truthy title) eqn:Htitle; [|done].
    rewrite hbind_os.
    destruct (gw_getAllWindows w) as [[windows|e] w0] eqn:Hall; [|done].
    rewrite hbind_run. unfold hlift.
    destruct (title_matches title windows w0) as [[|x rest]|e] eqn:Hmatch;
      try done.
    cbn. intros [= -> -> <-]. split; [done|]. split; [done|].
    exists windows. split; [done|]. right. split; [done|].
    unfold title_matches in Hmatch.
    destruct title as [| | | |text| |];
      try (by destruct windows); try done.
    injection Hmatch as Hmatch.
    apply filter_first in Hmatch as (before & after & -> & Hwin & Hbefore).
    exists text, before, after. repeat split; try done.
    intros ->. done.
Qed.

(** X20.  A truthy [hwnd] decides alone: the title plays no part, and when no
    window has that handle [_find_window] raises, whatever the title would
    have matched. *)
Theorem find_window_handle_decides (title hwnd : json) w :
  truthy hwnd = true ->
  (forall title' : json, _find_window title hwnd w = _find_window title' hwnd w)
  /\ (forall (windows : list Z) (w1 : World),
         HAS_PYGETWINDOW = true ->
         gw_getAllWindows w = (Ok windows, w1) ->
         Forall (fun x => int_eq x hwnd = false) windows ->
         _find_window title hwnd w
         = (Raise (Exn OtherException
                     ("Window with hwnd=" +:+ py_str hwnd +:+ " not found")),
            w1, [GetAllWindows])).
Proof.
  intros Hhwnd. split.
  - intros title'. unfold _find_window. by rewrite Hhwnd.
  - intros windows w1 Hhas Hall Hnone.
    unfold _find_window, _require_pygetwindow.
    rewrite Hhas, hbind_hret, Hhwnd, hbind_os, Hall.
    assert (Hfind : find (fun x => int_eq x hwnd) windows = None).
    { clear Hall. induction windows as [|x l IH]; [done|].
      apply Forall_cons in Hnone as [Hx Hl]. simpl. rewrite Hx. by apply IH. }
    by rewrite Hfind.
Qed.

Lemma success_title_run (win : Z) w :
  success_title win w
  = (Ok (JDict [("success", JBool true); ("title", JStr (win_title win w))]),
     w, []).
Proof. reflexivity. Qed.

(** X21.  The four operations on a window act once, on the window that
    [_find_window] gave, after the calls of the search.  [focus_window],
    [minimize_window] and [maximize_window] report the title the window has
    after the action; [close_window] reports the title it had before it was
    closed. *)
Theorem window_operations_report_title params w (win : Z) (w1 : World) cs :
  find_window_of params w = (Ok win, w1, cs) ->
  (forall w2 : World,
      win_activate win w1 = (Ok tt, w2) ->
      focus_window params w
      = (Ok (JDict [("success", JBool true);
                    ("title", JStr (win_title win w2))]),
         w2, (cs ++ [WindowActivate win])%list))
  /\ (forall w2 : World,
         win_minimize win w1 = (Ok tt, w2) ->
         minimize_window params w
         = (Ok (JDict [("success", JBool true);
                       ("title", JStr (win_title win w2))]),
            w2, (cs ++ [WindowMinimize win])%list))
  /\ (forall w2 : World,
         win_maximize win w1 = (Ok tt, w2) ->
         maximize_window params w
         = (Ok (JDict [("success", JBool true);
                       ("title", JStr (win_title win w2))]),
            w2, (cs ++ [WindowMaximize win])%list))
  /\ (forall w2 : World,
         win_close win w1 = (Ok tt, w2) ->
         close_window params w
         = (Ok (JDict [("success", JBool true);
                       ("title", JStr (win_title win w1))]),
            w2, (cs ++ [WindowClose win])%list)).
Proof.
  intros Hfind. repeat split; intros w2 Hact.
  - unfold focus_window. by rewrite hbind_run, Hfind, hbind_os, Hact.
  - unfold minimize_window. by rewrite hbind_run, Hfind, hbind_os, Hact.
  - unfold maximize_window. by rewrite hbind_run, Hfind, hbind_os, Hact.
  - unfold close_window.
    by rewrite hbind_run, Hfind, hbind_run, success_title_run, hbind_os, Hact.
Qed.

(** *** [process.py] *)

(** One turn of the loop of [kill_process]: it adds nothing to [killed], or
    the process it was given, whose name is the name asked for up to case and
    which [terminate] has ended. *)
Lemma kill_if_named_sound (name : json) (info : proc_info) w
    (killed : list json) (w1 : World) cs :
  kill_if_named name info w = (Ok killed, w1, cs) ->
  (killed = [] /\ forall p, ProcessTerminate p ∈ cs -> p = info_pid info)
  \/ exists n text : string,
       killed = [JDict [("pid", JInt (info_pid info)); ("name", JStr n)]]
       /\ info_name info = Some n
       /\ name = JStr text
       /\ n <> ""
       /\ str_lower n = str_lower text
       /\ proc_terminate (info_pid info) w = (Terminated, w1)
       /\ cs = [ProcessTerminate (info_pid info)].
Proof.
  unfold kill_if_named.
  destruct (info_name info) as [n|] eqn:Hname;
    [|intros [= <- _ <-]; left; split; [done|by intros p ?%elem_of_nil]].
  destruct (String.eqb_spec n "") as [->|Hn];
    [intros [= <- _ <-]; left; split; [done|by intros p ?%elem_of_nil]|].
  destruct name as [| | | |text| |]; try done.
  unfold same_name. rewrite hbind_hlift_ok.
  destruct (String.eqb_spec (str_lower n) (str_lower text)) as [Hsame|Hdiff];
    [|intros [= <- _ <-]; left; split; [done|by intros p ?%elem_of_nil]].
  destruct (proc_terminate (info_pid info) w) as [[| e | e] w'] eqn:Hterm;
    intros [= <- <- <-].
  - right. by exists n, text.
  - left. split; [done|]. by intros p [= ->]%list_elem_of_singleton.
Qed.

(** The calls of one turn, whatever its end: at most one [terminate], on the
    process given, whose name is the name asked for up to case. *)
Lemma kill_if_named_calls (name : json) (info : proc_info) w (c : os_call) :
  c ∈ hcalls (kill_if_named name info w) ->
  c = ProcessTerminate (info_pid info)
  /\ exists n text : string,
       info_name info = Some n
       /\ name = JStr text
       /\ n <> ""
       /\ str_lower n = str_lower text.
Proof.
  unfold kill_if_named.
  destruct (info_name info) as [n|] eqn:Hname; [|by intros ?%elem_of_nil].
  destruct (String.eqb_spec n "") as [->|Hn]; [by intros ?%elem_of_nil|].
  destruct name as [| | | |text| |]; try by intros ?%elem_of_nil.
  unfold same_name. rewrite hbind_hlift_ok.
  destruct (String.eqb_spec (str_lower n) (str_lower text)) as [Hsame|Hdiff];
    [|by intros ?%elem_of_nil].
  unfold hcalls. destruct (proc_terminate (info_pid info) w) as [r w'].
  simpl. intros ->%list_elem_of_singleton. split; [done|]. by exists n, text.
Qed.

(** What the search by name terminates: only processes that the generator
    has yielded, with a name that is the name asked for up to case. *)
Lemma kill_by_name_calls (name : json) (pids : list Z) w (p : Z) :
  ProcessTerminate p ∈ hcalls (kill_by_name name pids w) ->
  exists (pid : Z) (w0 w0' : World) (info : proc_info) (n text : string),
    pid ∈ pids
    /\ process_next pid w0 = (Some info, w0')
    /\ info_pid info = p
    /\ info_name info = Some n
    /\ name = JStr text
    /\ n <> ""
    /\ str_lower n = str_lower text.
Proof.
  revert w. induction pids as [|pid rest IH]; intros w;
    [by intros ?%elem_of_nil|].
  cbn [kill_by_name]. rewrite hbind_os.
  destruct (process_next pid w) as [info w0] eqn:Hnext.
  unfold hcalls at 1. cbn [snd]. intros [Heq|Hin]%elem_of_cons; [done|].
  apply hbind_calls_in in Hin as [Hin|(killed & w1 & cs1 & _ & Hin)].
  - destruct info as [info|]; [|by apply elem_of_nil in Hin].
    apply kill_if_named_calls in Hin as [[= ->] (n & text & Hn)].
    exists pid, w, w0, info, n, text. split; [by left|]. by split.
  - apply hbind_calls_in in Hin as [Hin|(more & w2 & cs2 & _ & Hin)];
      [|by apply elem_of_nil in Hin].
    destruct (IH _ Hin) as (pid' & w' & w'' & info' & n & text & Hpid & Hrest).
    exists pid', w', w'', info', n, text. split; [by right|done].
Qed.

(** What the search by name reports: each entry of [killed] is a process it
    has called [terminate] on, under the name the generator gave, which is
    the name asked for up to case. *)
Lemma kill_by_name_sound (name : json) (pids : list Z) w
    (killed : list json) (w1 : World) cs :
  kill_by_name name pids w = (Ok killed, w1, cs) ->
  Forall (fun entry =>
            exists (p : Z) (n text : string),
              entry = JDict [("pid", JInt p); ("name", JStr n)]
              /\ name = JStr text
              /\ n <> ""
              /\ str_lower n = str_lower text
              /\ ProcessTerminate p ∈ cs)
         killed.
Proof.
  revert w killed w1 cs. induction pids as [|pid rest IH];
    intros w killed w1 cs; [by intros [= <- _ _]|].
  cbn [kill_by_name]. rewrite hbind_os.
  destruct (process_next pid w) as [info w0] eqn:Hnext.
  rewrite hbind_run.
  destruct (match info with
            | Some i => kill_if_named name i
            | None => hret []
            end w0) as [[[first|e] w2] cs1] eqn:Hfirst; [|done].
  rewrite hbind_run.
  destruct (kill_by_name name rest w2) as [[[more|e] w3] cs2] eqn:Hmore;
    [|done].
  cbn. intros [= <- <- <-]. apply Forall_app. split.
  - destruct info as [info|]; [|injection Hfirst as <- _ _; done].
    apply kill_if_named_sound in Hfirst
        as [[-> _]|(n & text & -> & _ & -> & Hn & Hsame & _ & ->)]; [done|].
    constructor; [|done]. exists (info_pid info), n, text.
    repeat split; try done. right. apply elem_of_app. left. by left.
  - eapply Forall_impl; [by eapply IH|].
    intros entry (p & n & text & -> & Hname & Hn & Hsame & Hin).
    exists p, n, text. repeat split; try done.
    right. apply elem_of_app. right. by rewrite app_nil_r.
Qed.

(** X22.  [kill_process] with a truthy [pid]: the [name] of the request plays no
    part (two requests with the same [pid] do the same) and the processes are
    not searched; the calls are [psutil.Process],
    [name] and [terminate] on that one process.  The reply repeats the [pid]
    of the request as it was given.  And a process that has gone or that may
    not be ended fails the operation with the exception of [psutil], which
    the search by name would have skipped. *)
Theorem kill_process_by_pid kvs w :
  truthy (dict_get_or "pid" kvs JNull) = true ->
  (forall c : os_call,
      c ∈ hcalls (kill_process (JDict kvs) w) ->
      c = PsutilProcess (dict_get_or "pid" kvs JNull)
      \/ exists (proc : Z) (w1 : World),
           psutil_Process (dict_get_or "pid" kvs JNull) w = (Ok proc, w1)
           /\ (c = ProcessName proc \/ c = ProcessTerminate proc))
  /\ (forall (proc : Z) (w1 : World) (n : string) (w2 w3 : World),
         psutil_Process (dict_get_or "pid" kvs JNull) w = (Ok proc, w1) ->
         proc_name proc w1 = (Ok n, w2) ->
         (proc_terminate proc w2 = (Terminated, w3) ->
          kill_process (JDict kvs) w
          = (Ok (JDict [("success", JBool true);
                        ("killed",
                         JList [JDict [("pid", dict_get_or "pid" kvs JNull);
                                       ("name", JStr n)]])]),
             w3,
             [PsutilProcess (dict_get_or "pid" kvs JNull); ProcessName proc;
              ProcessTerminate proc]))
         /\ (forall e : exn,
                proc_terminate proc w2 = (GoneOrDenied e, w3) ->
                kill_process (JDict kvs) w
                = (Raise e, w3,
                   [PsutilProcess (dict_get_or "pid" kvs JNull);
                    ProcessName proc; ProcessTerminate proc])))
  /\ (forall kvs',
         dict_get_or "pid" kvs' JNull = dict_get_or "pid" kvs JNull ->
         kill_process (JDict kvs') w = kill_process (JDict kvs) w).
Proof.
  intros Hpid.
  assert (Hrun : kill_process (JDict kvs) w
                 = hbind
                     (hbind (os (PsutilProcess (dict_get_or "pid" kvs JNull))
                                (psutil_Process (dict_get_or "pid" kvs JNull)))
                        (fun proc =>
                           hbind (os (ProcessName proc) (proc_name proc))
                             (fun n =>
                                hbind (terminate_or_raise proc)
                                  (fun _ =>
                                     hret [JDict [("pid", dict_get_or "pid" kvs JNull);
                                                  ("name", JStr n)]]))))
                     (fun killed =>
                        match killed with
                        | [] =>
                            value_error
                              ("No process found matching: pid="
                               +:+ py_str (dict_get_or "pid" kvs JNull)
                               +:+ ", name="
                               +:+ py_str (dict_get_or "name" kvs JNull))
                        | _ :: _ =>
                            hret (JDict [("success", JBool true);
                                         ("killed", JList killed)])
                        end) w).
  { unfold kill_process.
    by rewrite py_get_dict, hbind_hlift_ok, py_get_dict, hbind_hlift_ok, Hpid. }
  split; [|split].
  - rewrite Hrun, hbind_run, hbind_os. unfold terminate_or_raise.
    destruct (psutil_Process (dict_get_or "pid" kvs JNull) w)
      as [[proc|e] w1] eqn:Hproc;
      [|intros c ->%list_elem_of_singleton; by left].
    assert (Hthree : forall c : os_call,
               c ∈ [PsutilProcess (dict_get_or "pid" kvs JNull);
                    ProcessName proc; ProcessTerminate proc] ->
               c = PsutilProcess (dict_get_or "pid" kvs JNull)
               \/ exists (proc0 : Z) (w0 : World),
                    (Ok proc, w1) = (Ok proc0, w0)
                    /\ (c = ProcessName proc0 \/ c = ProcessTerminate proc0)).
    { intros c [->|Hin]%elem_of_cons; [by left|].
      right. exists proc, w1. split; [done|].
      apply elem_of_cons in Hin as [->|Hin]; [by left|].
      apply list_elem_of_singleton in Hin as ->. by right. }
    rewrite hbind_os. destruct (proc_name proc w1) as [[n|e] w2] eqn:Hname.
    + rewrite hbind_os.
      destruct (proc_terminate proc w2) as [[| e | e] w3] eqn:Hterm;
        intros c Hin; apply Hthree; exact Hin.
    + intros c Hin. apply Hthree. unfold hcalls in Hin. cbn in Hin.
      apply elem_of_cons in Hin as [->|Hin]; [by left|].
      apply list_elem_of_singleton in Hin as ->. right. by left.
  - intros proc w1 n w2 w3 Hproc Hname.
    rewrite Hrun, hbind_run, hbind_os. unfold terminate_or_raise.
    rewrite Hproc, hbind_os, Hname, hbind_os.
    split; [intros Hterm|intros e Hterm]; by rewrite Hterm.
  - intros kvs' Heq. rewrite Hrun. unfold kill_process.
    rewrite py_get_dict, hbind_hlift_ok, py_get_dict, hbind_hlift_ok, Heq, Hpid.
    cbn [negb andb]. unfold terminate_or_raise, hbind, os, hret.
    destruct (psutil_Process _ w) as [[proc|e] w1]; [|reflexivity].
    destruct (proc_name proc w1) as [[n|e] w2]; [|reflexivity].
    by destruct (proc_terminate proc w2) as [[| e | e] w3].
Qed.

(** X23.  [kill_process] by name (the [pid] missing or falsy).  It never calls
    [terminate] on a process but one that the generator of [psutil] has
    yielded with a name equal, up to case, to the name asked for, which is a
    non-empty string.  And when it returns, [killed] is not empty, and each
    of its entries is such a process, on which [terminate] was called. *)
Theorem kill_process_by_name kvs w :
  truthy (dict_get_or "pid" kvs JNull) = false ->
  (forall p : Z,
      ProcessTerminate p ∈ hcalls (kill_process (JDict kvs) w) ->
      exists (pid : Z) (w0 w0' : World) (info : proc_info) (n text : string),
        pid ∈ fst (process_iter w)
        /\ process_next pid w0 = (Some info, w0')
        /\ info_pid info = p
        /\ info_name info = Some n
        /\ dict_get_or "name" kvs JNull = JStr text
        /\ text <> ""
        /\ n <> ""
        /\ str_lower n = str_lower text)
  /\ (forall (v : json) (w1 : World) cs,
         kill_process (JDict kvs) w = (Ok v, w1, cs) ->
         exists (text : string) (killed : list json),
           dict_get_or "name" kvs JNull = JStr text
           /\ v = JDict [("success", JBool true); ("killed", JList killed)]
           /\ killed <> []
           /\ Forall (fun entry =>
                        exists (p : Z) (n : string),
                          entry = JDict [("pid", JInt p); ("name", JStr n)]
                          /\ n <> ""
                          /\ str_lower n = str_lower text
                          /\ ProcessTerminate p ∈ cs)
                     killed).
Proof.
  intros Hpid. unfold kill_process.
  rewrite py_get_dict, hbind_hlift_ok, py_get_dict, hbind_hlift_ok, Hpid.
  cbn [negb andb].
  destruct (truthy (dict_get_or "name" kvs JNull)) eqn:Hname; cbn [negb];
    [|split; [by intros p ?%elem_of_nil|done]].
  rewrite hbind_run, hbind_os.
  destruct (process_iter w) as [pids w0] eqn:Hiter. cbn [fst].
  destruct (kill_by_name (dict_get_or "name" kvs JNull) pids w0)
    as [[[killed|e] w1] cs1] eqn:Hkill.
  - unfold hresult, hworld, hcalls. cbn [fst snd].
    assert (Hcalls : forall p : Z,
               ProcessTerminate p ∈ cs1 ->
               exists (pid : Z) (w0 w0' : World) (info : proc_info)
                      (n text : string),
                 pid ∈ pids
                 /\ process_next pid w0 = (Some info, w0')
                 /\ info_pid info = p
                 /\ info_name info = Some n
                 /\ dict_get_or "name" kvs JNull = JStr text
                 /\ text <> ""
                 /\ n <> ""
                 /\ str_lower n = str_lower text).
    { intros p Hin.
      destruct (kill_by_name_calls (dict_get_or "name" kvs JNull) pids w0 p)
        as (pid & w' & w'' & info & n & text & Hpids & Hnext & Hp & Hn & Htext
            & Hne & Hsame); [by rewrite Hkill|].
      exists pid, w', w'', info, n, text. repeat split; try done.
      intros ->. by rewrite Htext in Hname. }
    apply kill_by_name_sound in Hkill as Hsound.
    destruct killed as [|entry killed].
    + split.
      * intros p Hin. apply Hcalls.
        cbn in Hin. apply elem_of_cons in Hin as [?|Hin]; [done|].
        by rewrite app_nil_r in Hin.
      * done.
    + split.
      * intros p Hin. apply Hcalls.
        cbn in Hin. apply elem_of_cons in Hin as [?|Hin]; [done|].
        by rewrite app_nil_r in Hin.
      * cbn. intros v w2 cs [= <- <- <-].
        apply Forall_cons in Hsound as Hboth.
        destruct Hboth as [(p & n & text & -> & Htext & Hn & Hsame & Hin) _].
        exists text, (JDict [("pid", JInt p); ("name", JStr n)] :: killed).
        repeat split; try done.
        eapply Forall_impl; [exact Hsound|].
        intros entry (p' & n' & text' & -> & Htext' & Hn' & Hsame' & Hin').
        exists p', n'. rewrite Htext in Htext'. injection Htext' as <-.
        repeat split; try done. right. by rewrite app_nil_r.
  - unfold hresult, hworld, hcalls. cbn [fst snd]. split; [|done].
    intros p Hin. apply elem_of_cons in Hin as [?|Hin]; [done|].
    destruct (kill_by_name_calls (dict_get_or "name" kvs JNull) pids w0 p)
      as (pid & w' & w'' & info & n & text & Hpids & Hnext & Hp & Hn & Htext
          & Hne & Hsame); [by rewrite Hkill|].
    exists pid, w', w'', info, n, text. repeat split; try done.
    intros ->. by rewrite Htext in Hname.
Qed.

(** *** The handlers behind the dispatcher *)


End HandlerFacts.

(** * The bench: the theorems at concrete requests *)

(** Scenario A: the request r1 for the stub [system_info]. *)
Lemma on_message_registered_success_witness :
  exists packet,
    _on_message bench_operations
      (bench_request (Some "r1") (Some "system_info")) (init, 0)
    = (Ok tt, (init, 2),
       [EvCall "system_info" (JDict []);
        EvPublish TOPICS_RESPONSE packet 1 false])
    /\ published
         (trace (_on_message bench_operations
                   (bench_request (Some "r1") (Some "system_info")) (init, 0)))
       = [(TOPICS_RESPONSE, packet, 1, false)]
    /\ packet_field "type" packet = Some (JStr "response")
    /\ payload_field "requestId" packet = Some (JStr "r1")
    /\ payload_field "data" packet = Some (JDict [("hostname", JStr "h1")]).
Proof.
  refine (on_message_registered_success bench_operations
           (bench_request (Some "r1") (Some "system_info")) init 0
           [("id", JStr "r1"); ("payload", JDict [("action", JStr "system_info")])]
           [("action", JStr "system_info")]
           "r1" "system_info" stub_system_info
           (JDict [("hostname", JStr "h1")]) 0 [] _ _ _ _ _ _ _ _ _);
    first [reflexivity | discriminate].
Defined.

(** Against C2 as stated: the request with the empty string as [id] for an
    operation that is not registered.  The [except] clause finds a falsy
    [request_id] and publishes nothing. *)
Lemma unknown_operation_empty_id_unanswered :
  decode_loads (payload (bench_request (Some "") (Some "does_not_exist")))
  = Ok (JDict [("id", JStr "");
               ("payload", JDict [("action", JStr "does_not_exist")])])
  /\ lookup_operation bench_operations "does_not_exist" = None
  /\ _on_message bench_operations
       (bench_request (Some "") (Some "does_not_exist")) (init, 0)
     = (Ok tt, (init, 0), []).
Proof. repeat split; reflexivity. Qed.

(** Scenario B: the request r2 for an operation that is not registered; and
    the same request with the empty string as its [id], which is left without
    an answer. *)
Lemma on_message_unknown_operation_witness :
  (exists packet,
     _on_message bench_operations
       (bench_request (Some "r2") (Some "does_not_exist")) (init, 0)
     = (Ok tt, (init, 2), [EvPublish TOPICS_RESPONSE packet 1 false])
     /\ published
          (trace (_on_message bench_operations
                    (bench_request (Some "r2") (Some "does_not_exist"))
                    (init, 0)))
        = [(TOPICS_RESPONSE, packet, 1, false)]
     /\ packet_field "type" packet = Some (JStr "error")
     /\ payload_field "requestId" packet = Some (JStr "r2")
     /\ payload_field "message" packet
        = Some (JStr "Unknown operation: does_not_exist")
     /\ packet_field "id" packet
        = Some (JStr "00000000-0000-4000-8000-000000000000")
     /\ packet_field "timestamp" packet = Some (JInt 1700000000001))
  /\ _on_message bench_operations
       (bench_request (Some "") (Some "does_not_exist")) (init, 0)
     = (Ok tt, (init, 0), []).
Proof.
  split.
  - refine (proj1 (proj2
              (on_message_unknown_operation bench_operations
                 (bench_request (Some "r2") (Some "does_not_exist")) init 0
                 [("id", JStr "r2");
                  ("payload", JDict [("action", JStr "does_not_exist")])]
                 [("action", JStr "does_not_exist")] "r2" "does_not_exist"
                 _ _ _ _ _ _ _ _)) _);
      first [reflexivity | discriminate].
  - refine (proj2 (proj2
              (on_message_unknown_operation bench_operations
                 (bench_request (Some "") (Some "does_not_exist")) init 0
                 [("id", JStr "");
                  ("payload", JDict [("action", JStr "does_not_exist")])]
                 [("action", JStr "does_not_exist")] "" "does_not_exist"
                 _ _ _ _ _ _ _ _)) _);
      first [reflexivity | discriminate].
Defined.

(** A payload that is no JSON text. *)
Lemma on_message_invalid_json_witness :
  decode_loads (list_byte_of_string "{")
  = Raise (Exn JSONDecodeError "Expecting value")
  /\ _on_message bench_operations
       (Message TOPICS_REQUEST (list_byte_of_string "{")) (init, 0)
     = (Ok tt, (init, 0), []).
Proof.
  split; [reflexivity|].
  refine (on_message_invalid_json bench_operations
           (Message TOPICS_REQUEST (list_byte_of_string "{")) (init, 0)
           (Exn JSONDecodeError "Expecting value") _ _ _);
    reflexivity.
Defined.

(** The request r5, whose payload is the empty dict. *)
Lemma on_message_missing_action_witness :
  exists packet,
    _on_message bench_operations (bench_request (Some "r5") None) (init, 0)
    = (Ok tt, (init, 2), [EvPublish TOPICS_RESPONSE packet 1 false])
    /\ published
         (trace (_on_message bench_operations
                   (bench_request (Some "r5") None) (init, 0)))
       = [(TOPICS_RESPONSE, packet, 1, false)]
    /\ packet_field "type" packet = Some (JStr "error")
    /\ payload_field "requestId" packet = Some (JStr "r5")
    /\ payload_field "message" packet
       = Some (JStr "Missing 'action' in payload")
    /\ packet_field "id" packet
       = Some (JStr "00000000-0000-4000-8000-000000000000")
    /\ packet_field "timestamp" packet = Some (JInt 1700000000001)
    /\ (forall (name : string) (p : json),
           EvCall name p
           ∉ trace (_on_message bench_operations
                      (bench_request (Some "r5") None) (init, 0))).
Proof.
  refine (on_message_missing_action bench_operations
           (bench_request (Some "r5") None) init 0
           [("id", JStr "r5"); ("payload", JDict [])] [] _ _ _ _);
    reflexivity.
Defined.

(** The request for [system_info] that carries no [id]. *)
Lemma on_message_no_id_witness :
  _on_message bench_operations (bench_request None (Some "system_info"))
    (init, 0)
  = (Ok tt, (init, 0), []).
Proof.
  refine (on_message_no_id bench_operations
           (bench_request None (Some "system_info")) init 0
           [("payload", JDict [("action", JStr "system_info")])]
           [("action", JStr "system_info")] (JStr "system_info")
           _ _ _ _ _ _);
    first [reflexivity | left; reflexivity].
Defined.



(** The handlers of the bench fail plainly, and its requests with a
    non-empty [id] are answerable. *)
Lemma bench_plain_failures : plain_failures bench_operations.
Proof.
  intros name fn params w w1 e evs.
  unfold lookup_operation, bench_operations, register_run_command, operation.
  destruct (decide (name = "run_command")) as [->|Hne1].
  { rewrite lookup_insert_eq. intros [= <-]. simpl. intros Hrun.
    apply run_command_raises in Hrun as [Hcls|(command & timeout & Hrun)];
      [done|].
    simpl in Hrun. unfold bench_subprocess_run in Hrun.
    repeat case_match; by simplify_eq. }
  rewrite lookup_insert_ne by done.
  destruct (decide (name = "system_info")) as [->|Hne2].
  { rewrite lookup_insert_eq. by intros [= <-]. }
  by rewrite lookup_insert_ne, lookup_empty.
Qed.

Lemma bench_answerable (id action : string) :
  id <> "" ->
  In (Some id, Some action) bench_requests ->
  answerable (bench_request (Some id) (Some action)).
Proof.
  intros Hid Hin. split; [done|].
  exists [("id", JStr id); ("payload", JDict [("action", JStr action)])], id.
  split; [|done]. simpl in Hin.
  repeat destruct Hin as [[= <- <-]|Hin]; try done.
Qed.

(** Scenario C: r1, then r2, then the request without [action]: the replies
    come in the order of the requests. *)
Example deliver_three_requests :
  reply_ids
    (trace (deliver bench_operations
              [bench_request (Some "r1") (Some "system_info");
               bench_request (Some "r2") (Some "does_not_exist");
               bench_request (Some "r5") None] (init, 0)))
  = [JStr "r1"; JStr "r2"; JStr "r5"].
Proof. reflexivity. Qed.

(** Scenario D: the last Status Envelope of a shutdown says offline. *)
Example shutdown_ends_offline :
  last (published (trace (start bench_operations
                            (signal_handler bench_operations) (init, 0))))
  = Some (TOPICS_STATUS,
          status_packet "00000000-0000-4000-8000-000000000000" 1700000000003
            "offline" ["run_command"; "system_info"],
          1, true).
Proof. reflexivity. Qed.

(** ** Failing handlers at the dispatcher *)


(** The request r1 when [system_info] raises [JSONDecodeError]: the handler
    is called and nothing is published. *)
Lemma on_message_handler_json_error_witness :
  _on_message
    (failing_operations (stub_raising (Exn JSONDecodeError "Expecting value")))
    (bench_request (Some "r1") (Some "system_info")) (init, 0)
  = (Ok tt, (init, 0), [EvCall "system_info" (JDict [])])
  /\ published
       (trace (_on_message
                 (failing_operations
                    (stub_raising (Exn JSONDecodeError "Expecting value")))
                 (bench_request (Some "r1") (Some "system_info")) (init, 0)))
     = [].
Proof.
  refine (on_message_handler_json_error
            (failing_operations
               (stub_raising (Exn JSONDecodeError "Expecting value")))
            (bench_request (Some "r1") (Some "system_info")) init 0
            [("id", JStr "r1"); ("payload", JDict [("action", JStr "system_info")])]
            [("action", JStr "system_info")] "r1" "system_info"
            (stub_raising (Exn JSONDecodeError "Expecting value"))
            (Exn JSONDecodeError "Expecting value") 0 []
            _ _ _ _ _ _ _ _ _ _);
    first [reflexivity | discriminate].
Defined.

(** The request r1 when [system_info] calls [sys.exit]: the exception leaves
    [_on_message]. *)
Lemma on_message_handler_exit_witness :
  _on_message (failing_operations (stub_raising (Exn SystemExit "1")))
    (bench_request (Some "r1") (Some "system_info")) (init, 0)
  = (Raise (Exn SystemExit "1"), (init, 0), [EvCall "system_info" (JDict [])]).
Proof.
  refine (on_message_handler_exit
            (failing_operations (stub_raising (Exn SystemExit "1")))
            (bench_request (Some "r1") (Some "system_info")) init 0
            [("id", JStr "r1"); ("payload", JDict [("action", JStr "system_info")])]
            [("action", JStr "system_info")] "r1" "system_info"
            (stub_raising (Exn SystemExit "1")) (Exn SystemExit "1") 0 []
            _ _ _ _ _ _ _ _ _ _);
    first [reflexivity | discriminate | left; reflexivity].
Defined.

(** The request r1 when [system_info] returns [bytes]. *)
Lemma on_message_unserializable_result_witness :
  exists packet,
    _on_message (failing_operations stub_unserializable)
      (bench_request (Some "r1") (Some "system_info")) (init, 0)
    = (Ok tt, (init, 4),
       [EvCall "system_info" (JDict []);
        EvPublish TOPICS_RESPONSE packet 1 false])
    /\ published
         (trace (_on_message (failing_operations stub_unserializable)
                   (bench_request (Some "r1") (Some "system_info")) (init, 0)))
       = [(TOPICS_RESPONSE, packet, 1, false)]
    /\ packet_field "type" packet = Some (JStr "error")
    /\ payload_field "requestId" packet = Some (JStr "r1")
    /\ payload_field "message" packet
       = Some (JStr "Object of type bytes is not JSON serializable")
    /\ payload_field "data" packet = None
    /\ packet_field "id" packet = Some (JStr "00000000-0000-4000-8000-000000000000")
    /\ packet_field "timestamp" packet = Some (JInt 1700000000003).
Proof.
  refine (on_message_unserializable_result
            (failing_operations stub_unserializable)
            (bench_request (Some "r1") (Some "system_info")) init 0
            [("id", JStr "r1"); ("payload", JDict [("action", JStr "system_info")])]
            [("action", JStr "system_info")] "r1" "system_info"
            stub_unserializable
            "Object of type bytes is not JSON serializable" 0 []
            _ _ _ _ _ _ _ _ _ _);
    first [reflexivity | discriminate].
Defined.

(** The text [[]] and then the request r9: the first message ends the
    serving of both. *)
Lemma deliver_not_an_object_witness :
  _on_message desk_operations
    (Message TOPICS_REQUEST (list_byte_of_string "[]")) (init, desk0)
  = (Raise (Exn OtherException "'list' object has no attribute 'get'"),
     (init, desk0), [])
  /\ deliver desk_operations
       [Message TOPICS_REQUEST (list_byte_of_string "[]");
        bench_request (Some "r9") (Some "get_clipboard")] (init, desk0)
     = (Raise (Exn OtherException "'list' object has no attribute 'get'"),
        (init, desk0), []).
Proof.
  refine (deliver_not_an_object desk_operations
            (Message TOPICS_REQUEST (list_byte_of_string "[]"))
            [bench_request (Some "r9") (Some "get_clipboard")] (init, desk0)
            (JList []) _ _ _);
    first [reflexivity | discriminate].
Defined.

(** The request r7, whose [payload] is [null]. *)
Lemma on_message_payload_not_a_dict_witness :
  exists packet,
    _on_message desk_operations
      (Message TOPICS_REQUEST (list_byte_of_string null_payload_text))
      (init, desk0)
    = (Ok tt, (init, desk_tick (desk_tick desk0)),
       [EvPublish TOPICS_RESPONSE packet 1 false])
    /\ packet_field "type" packet = Some (JStr "error")
    /\ payload_field "requestId" packet = Some (JStr "r7")
    /\ payload_field "message" packet
       = Some (JStr "'NoneType' object has no attribute 'get'")
    /\ packet_field "id" packet = Some (JStr "00000000-0000-4000-8000-000000000000")
    /\ packet_field "timestamp" packet = Some (JInt 1700000000001).
Proof.
  refine (on_message_payload_not_a_dict desk_operations
            (Message TOPICS_REQUEST (list_byte_of_string null_payload_text))
            init desk0 [("id", JStr "r7"); ("payload", JNull)] JNull "r7"
            _ _ _ _ _ _);
    first [reflexivity | discriminate].
Defined.

(** The call of the stub [system_info] for the request r1. *)
Lemma on_message_calls_registered_witness :
  topic (bench_request (Some "r1") (Some "system_info")) = TOPICS_REQUEST
  /\ loop_closed (fst (init, 0)) = false
  /\ is_Some (lookup_operation bench_operations "system_info")
  /\ "system_info" <> ""
  /\ (JDict [] = JDict [] \/ truthy (JDict []) = true)
  /\ exists kvs pl,
       decode_loads (payload (bench_request (Some "r1") (Some "system_info")))
       = Ok (JDict kvs)
       /\ dict_get_or "payload" kvs (JDict []) = JDict pl
       /\ dict_get_or "action" pl JNull = JStr "system_info"
       /\ JDict [] = params_of pl.
Proof.
  refine (on_message_calls_registered bench_operations
            (bench_request (Some "r1") (Some "system_info")) (init, 0)
            "system_info" (JDict []) _).
  vm_compute. left.
Defined.

(** ** [run_command] on the bench *)

(** A command without a [timeout]: the configured 30 seconds. *)
Lemma run_command_timeout_of_request_witness :
  (dict_get "timeout" [("command", JStr "ls")] = None ->
   snd (run_command (JDict [("command", JStr "ls")]) 0)
   = [SubprocessRun (JStr "ls") (JInt 30)])
  /\ (forall z : Z,
         dict_get "timeout" [("command", JStr "ls")] = Some (JInt z) ->
         snd (run_command (JDict [("command", JStr "ls")]) 0)
         = [SubprocessRun (JStr "ls") (JInt (Z.min z 120))])
  /\ (forall v : json,
         dict_get "timeout" [("command", JStr "ls")] = Some v ->
         v = JNull \/ (exists text, v = JStr text) ->
         run_command (JDict [("command", JStr "ls")]) 0
         = (Raised (Exn OtherException
                      (err_text (LtNotSupported (type_name v)))), 0, [])).
Proof.
  refine (run_command_timeout_of_request [("command", JStr "ls")] 0 _).
  reflexivity.
Defined.

(** A command that writes five code points where three have room: the
    first three are returned, the second of them with both its bytes. *)
Lemma run_command_output_capped_witness :
  String.length "héllo" = 6%nat
  /\ @run_command Z short_output_platform (JDict [("command", JStr "ls")]) 0
     = (Returned (Json (JDict [("stdout", JStr "hél"); ("stderr", JStr "");
                              ("return_code", JInt 0)])),
        1, [SubprocessRun (JStr "ls") (JInt 30)])
  /\ exists out' err' : string,
       @run_command Z short_output_platform (JDict [("command", JStr "ls")]) 0
       = (Returned (Json (JDict [("stdout", JStr out'); ("stderr", JStr err');
                                ("return_code", JInt 0)])),
          1, [SubprocessRun (JStr "ls") (JInt 30)])
       /\ (exists rest, "héllo" = out' +:+ rest /\ starts_point rest = true)
       /\ (exists rest, "" = err' +:+ rest /\ starts_point rest = true)
       /\ Z.of_nat (py_len out') = Z.min 3 (Z.of_nat (py_len "héllo"))
       /\ Z.of_nat (py_len err') = Z.min 3 (Z.of_nat (py_len "")).
Proof.
  split; [reflexivity|]. split; [reflexivity|].
  refine (@run_command_output_capped Z short_output_platform
            (JDict [("command", JStr "ls")]) 0 (JStr "ls") (JInt 30)
            "héllo" "" 0 1 _ _ _).
  - discriminate.
  - vm_compute. left.
  - reflexivity.
Defined.

(** ** The other handlers on the desk *)

(** The desk has no browser, and [open_url] says success. *)
Lemma open_url_reports_success_witness :
  webbrowser_open (JStr "https://example.org") desk0 = (Ok false, desk0)
  /\ open_url (JDict [("url", JStr "https://example.org")]) desk0
     = (Ok (JDict [("success", JBool true)]), desk0,
        [WebbrowserOpen (JStr "https://example.org")]).
Proof.
  split; [reflexivity|].
  refine (open_url_reports_success [("url", JStr "https://example.org")] desk0
            false desk0 _ _);
    reflexivity.
Defined.


(** The title NOTE finds the second window of the desk, the first whose title
    contains it without regard to case. *)
Lemma find_window_sound_witness :
  _find_window (JStr "NOTE") JNull desk0 = (Ok 102, desk0, [GetAllWindows])
  /\ HAS_PYGETWINDOW = true
  /\ [GetAllWindows] = [GetAllWindows]
  /\ exists windows,
       gw_getAllWindows desk0 = (Ok windows, desk0)
       /\ ((truthy JNull = true
            /\ find (fun x => int_eq x JNull) windows = Some 102)
           \/ (truthy JNull = false
               /\ exists (text : string) before after,
                    JStr "NOTE" = JStr text
                    /\ text <> ""
                    /\ windows = (before ++ 102 :: after)%list
                    /\ str_contains (str_lower text)
                         (str_lower (win_title 102 desk0)) = true
                    /\ Forall (fun x =>
                                 str_contains (str_lower text)
                                   (str_lower (win_title x desk0)) <> true)
                              before)).
Proof.
  split; [reflexivity|].
  refine (find_window_sound (JStr "NOTE") JNull desk0 102 desk0
            [GetAllWindows] _).
  reflexivity.
Defined.

(** No window of the desk has the handle 999, whatever the title asks for. *)
Lemma find_window_handle_decides_witness :
  (forall title' : json,
      _find_window (JStr "Terminal") (JInt 999) desk0
      = _find_window title' (JInt 999) desk0)
  /\ (forall (windows : list Z) (w1 : desk),
         HAS_PYGETWINDOW = true ->
         gw_getAllWindows desk0 = (Ok windows, w1) ->
         Forall (fun x => int_eq x (JInt 999) = false) windows ->
         _find_window (JStr "Terminal") (JInt 999) desk0
         = (Raise (Exn OtherException
                     ("Window with hwnd=" +:+ py_str (JInt 999)
                      +:+ " not found")),
            w1, [GetAllWindows])).
Proof.
  refine (find_window_handle_decides (JStr "Terminal") (JInt 999) desk0 _).
  reflexivity.
Defined.

(** The window 104 of the desk: closing it reports the title it had, which
    it has no more afterwards. *)
Lemma window_operations_report_title_witness :
  close_window (JDict [("hwnd", JInt 104)]) desk0
  = (Ok (JDict [("success", JBool true); ("title", JStr "notepad++")]),
     desk_close 104 desk0, [GetAllWindows; WindowClose 104])
  /\ win_title 104 (desk_close 104 desk0) = "".
Proof.
  split; [|reflexivity].
  refine (proj2 (proj2 (proj2
            (window_operations_report_title (JDict [("hwnd", JInt 104)]) desk0
               104 desk0 [GetAllWindows] _))) (desk_close 104 desk0) _);
    reflexivity.
Defined.

(** Process 1 of the desk may not be ended: [kill_process] with its pid
    raises what [terminate] raises. *)
Lemma kill_process_by_pid_witness :
  kill_process (JDict [("pid", JInt 1); ("name", JStr "python3")]) desk0
  = (Raise (Exn OtherException "(pid=1)"), desk0,
     [PsutilProcess (JInt 1); ProcessName 1; ProcessTerminate 1]).
Proof.
  refine (proj2 (proj1 (proj2
            (kill_process_by_pid [("pid", JInt 1); ("name", JStr "python3")]
               desk0 _)) 1 desk0 "systemd" desk0 desk0 _ _)
            (Exn OtherException "(pid=1)") _);
    reflexivity.
Defined.

(** The name NOTEPAD.EXE ends the two processes of the desk that have it up
    to case. *)
Lemma kill_process_by_name_witness :
  kill_process (JDict [("name", JStr "NOTEPAD.EXE")]) desk0
  = (Ok (JDict [("success", JBool true);
                ("killed",
                 JList [JDict [("pid", JInt 40); ("name", JStr "Notepad.exe")];
                        JDict [("pid", JInt 42); ("name", JStr "notepad.exe")]])]),
     desk_end 42 (desk_end 40 desk0),
     [ProcessIter; ProcessNext 1; ProcessNext 40; ProcessTerminate 40;
      ProcessNext 41; ProcessNext 42; ProcessTerminate 42])
  /\ exists (text : string) (killed : list json),
       dict_get_or "name" [("name", JStr "NOTEPAD.EXE")] JNull = JStr text
       /\ JDict [("success", JBool true);
                 ("killed",
                  JList [JDict [("pid", JInt 40); ("name", JStr "Notepad.exe")];
                         JDict [("pid", JInt 42); ("name", JStr "notepad.exe")]])]
          = JDict [("success", JBool true); ("killed", JList killed)]
       /\ killed <> []
       /\ Forall (fun entry =>
                    exists (p : Z) (n : string),
                      entry = JDict [("pid", JInt p); ("name", JStr n)]
                      /\ n <> ""
                      /\ str_lower n = str_lower text
                      /\ ProcessTerminate p
                         ∈ [ProcessIter; ProcessNext 1; ProcessNext 40;
                            ProcessTerminate 40; ProcessNext 41; ProcessNext 42;
                            ProcessTerminate 42])
                 killed.
Proof.
  split; [reflexivity|].
  refine (proj2 (kill_process_by_name [("name", JStr "NOTEPAD.EXE")] desk0 _)
            _ (desk_end 42 (desk_end 40 desk0)) _ _);
    reflexivity.
Defined.

